(** * Product analysis (templates/js/product-analysis.js)

    A shallow embedding of the per-branch product pipeline of the dashboard:
    branch filter, product aggregation, ranking, the Top Performers rows and
    summary, and the financial breakdown of one product.

    Conventions of the embedding.
    - A JavaScript number is an exact rational ([Qc]); rounding of IEEE
      doubles is outside the model.
    - A numeric field of a row object is an [option Qc]: [None] stands for
      any falsy non-number (undefined, null, NaN), which [x || 0] turns
      into 0.
    - A string is a [string] of one-byte characters.
    - The DOM is a record of the values read by [getElementById]. *)

From Stdlib Require Import List String Ascii Bool Arith ZArith NArith.
From Stdlib Require Import QArith Qcanon Lia Permutation Sorted.
From Stdlib Require DecimalString DecimalNat.
Import ListNotations.

Local Open Scope string_scope.
Local Open Scope list_scope.

(** ** The ECMAScript built-ins the module relies on *)

Module Js.

(** [a > b] on numbers. *)
Definition gtb (a b : Qc) : bool :=
  match (a ?= b)%Qc with Gt => true | _ => false end.

(** [x || 0] for a numeric field. *)
Definition or0 (x : option Qc) : Qc :=
  match x with Some v => v | None => 0%Qc end.

Definition of_nat (n : nat) : Qc := Q2Qc (inject_Z (Z.of_nat n)).

(** *** Strings *)

(** [s.length > n ? s.substring(0, n) + '...' : s] *)
Definition ellipsis (n : nat) (s : string) : string :=
  if (n <? String.length s)%nat then (substring 0 n s ++ "...")%string else s.

(** *** parseInt(string), radix undefined *)

Definition is_space (c : ascii) : bool :=
  existsb (N.eqb (N_of_ascii c)) [9; 10; 11; 12; 13; 32]%N.

Fixpoint trim_start (s : string) : string :=
  match s with
  | String c r => if is_space c then trim_start r else s
  | EmptyString => s
  end.

Definition digit_in (radix : N) (c : ascii) : option N :=
  let n := N_of_ascii c in
  let d :=
    if (48 <=? n)%N && (n <=? 57)%N then Some (n - 48)%N
    else if (97 <=? n)%N && (n <=? 122)%N then Some (n - 87)%N
    else if (65 <=? n)%N && (n <=? 90)%N then Some (n - 55)%N
    else None in
  match d with
  | Some v => if (v <? radix)%N then Some v else None
  | None => None
  end.

(** Value of the longest prefix of digits; [acc] is [None] until a digit
    has been read. *)
Fixpoint leading_digits (radix : N) (s : string) (acc : option N) : option N :=
  match s with
  | String c r =>
      match digit_in radix c with
      | Some d =>
          leading_digits radix r
            (Some (radix * match acc with Some a => a | None => 0%N end + d)%N)
      | None => acc
      end
  | EmptyString => acc
  end.

(** [None] is NaN. *)
Definition parseInt (input : string) : option Z :=
  let s := trim_start input in
  let '(neg, s) :=
    match s with
    | String "-" r => (true, r)
    | String "+" r => (false, r)
    | _ => (false, s)
    end in
  let '(radix, s) :=
    match s with
    | String "0" (String "x" r) => (16%N, r)
    | String "0" (String "X" r) => (16%N, r)
    | _ => (10%N, s)
    end in
  match leading_digits radix s None with
  | Some n => Some (if neg : bool then (- Z.of_N n)%Z else Z.of_N n)
  | None => None
  end.

(** *** Arrays *)

(** [l.slice(0, end)]; a NaN [end] counts as 0, a negative one is taken
    from the back. *)
Definition slice0 {A} (l : list A) (end_ : option Z) : list A :=
  let len := Z.of_nat (List.length l) in
  let rel := match end_ with Some e => e | None => 0%Z end in
  let final := if (rel <? 0)%Z then Z.max (len + rel) 0 else Z.min rel len in
  firstn (Z.to_nat final) l.

(** [l.sort(cmp)]: the sort of ECMAScript 2019 and later is stable; [x] is
    placed after [y] only when [cmp x y > 0]. *)
Fixpoint insert {A} (cmp : A -> A -> Qc) (x : A) (l : list A) : list A :=
  match l with
  | [] => [x]
  | y :: r => if gtb (cmp x y) 0%Qc then y :: insert cmp x r else x :: y :: r
  end.

Fixpoint sort {A} (cmp : A -> A -> Qc) (l : list A) : list A :=
  match l with
  | [] => []
  | x :: r => insert cmp x (sort cmp r)
  end.

(** [l.reduce((sum, p) => sum + f(p), 0)] *)
Definition sum {A} (f : A -> Qc) (l : list A) : Qc :=
  fold_left (fun acc p => (acc + f p)%Qc) l 0%Qc.

(** *** Ordinary objects used as maps *)

Fixpoint digits_value (acc : N) (s : string) : option N :=
  match s with
  | EmptyString => Some acc
  | String c r =>
      match digit_in 10%N c with
      | Some d => digits_value (10 * acc + d)%N r
      | None => None
      end
  end.

(** A property key is an array index when it is the canonical decimal
    string of an integer below 2^32 - 1. *)
Definition array_index (k : string) : option N :=
  match k with
  | EmptyString => None
  | String "0" EmptyString => Some 0%N
  | String "0" _ => None
  | _ =>
      match digits_value 0%N k with
      | Some n => if (n <? 2 ^ 32 - 1)%N then Some n else None
      | None => None
      end
  end.

(** The properties every object literal inherits from Object.prototype. *)
Definition proto_members : list string :=
  [ "constructor"; "__defineGetter__"; "__defineSetter__"; "hasOwnProperty";
    "__lookupGetter__"; "__lookupSetter__"; "isPrototypeOf";
    "propertyIsEnumerable"; "toString"; "valueOf"; "__proto__";
    "toLocaleString" ].

Definition inherited (k : string) : bool :=
  existsb (String.eqb k) proto_members.

Section Object.
Context {V : Type}.

(** The own properties of an object, in the order of
    OrdinaryOwnPropertyKeys: the array indices in ascending order, then the
    other keys in the order of their creation. *)
Definition obj : Type := list (string * V).

Definition empty : obj := [].

Inductive lookup : Type :=
| Own (v : V)
| Inherited
| Undefined.

Fixpoint own (o : obj) (k : string) : option V :=
  match o with
  | [] => None
  | (k', v) :: r => if k =? k' then Some v else own r k
  end.

(** [o[k]]: an own property, else a member of Object.prototype, else
    undefined. *)
Definition get (o : obj) (k : string) : lookup :=
  match own o k with
  | Some v => Own v
  | None => if inherited k then Inherited else Undefined
  end.

(** Whether a new key [k] is enumerated before the existing key [k']. *)
Definition before (k k' : string) : bool :=
  match array_index k, array_index k' with
  | Some n, Some m => (n <? m)%N
  | Some _, None => true
  | None, _ => false
  end.

Fixpoint create (k : string) (v : V) (o : obj) : obj :=
  match o with
  | [] => [(k, v)]
  | (k', w) :: r =>
      if before k k' then (k, v) :: (k', w) :: r else (k', w) :: create k v r
  end.

(** A mutation [f] of the object that [o[k]] evaluates to.  When [o[k]] is
    an inherited member the write lands on that member, which is no property
    of [o]: [o] is unchanged. *)
Fixpoint adjust (o : obj) (k : string) (f : V -> V) : obj :=
  match o with
  | [] => []
  | (k', v) :: r => if k =? k' then (k', f v) :: r else (k', v) :: adjust r k f
  end.

(** [o[k] = v], for a key that is not a member of Object.prototype. *)
Definition put (o : obj) (k : string) (v : V) : obj :=
  match own o k with
  | Some _ => adjust o k (fun _ => v)
  | None => create k v o
  end.

(** [Object.values(o)] *)
Definition values (o : obj) : list V := map snd o.

End Object.
Arguments obj : clear implicits.
Arguments lookup : clear implicits.

End Js.

(** ** Data *)

(** One row of [window.productAnalysisData]. *)
Module Item.
Record t : Type := mk {
  Branch : string;
  Menu : string;
  Qty : option Qc;
  Total : option Qc;
  Margin : option Qc;
  COGS_Total : option Qc
}.
End Item.

(** A value of [productStats]. *)
Module Stat.
Record t : Type := mk {
  Menu : string;
  Total : Qc;
  Qty : Qc;
  Margin : Qc;
  branch : string
}.
End Stat.

(** An element of [products]. *)
Module Product.
Record t : Type := mk {
  Menu : string;
  Total : Qc;
  Qty : Qc;
  Margin : Qc;
  branch : string;
  Margin_Percentage : Qc;
  Avg_Price : Qc
}.
End Product.

(** What the functions read from the document: the three select values and
    whether the two containers exist. *)
Record Dom : Type := {
  branchSelect : string;
  topCount : string;
  sortBy : string;
  top_performers_table : bool;
  summary_content : bool
}.

Definition num (z : Z) : Qc := Q2Qc (inject_Z z).

(** ** updateTopPerformersTable: filter, aggregate, rank *)

(** [allData.filter(item => item.Branch === selectedBranch)] *)
Definition branchDataOf (allData : list Item.t) (selectedBranch : string) : list Item.t :=
  filter (fun item => Item.Branch item =? selectedBranch) allData.

(** The body of [branchData.forEach]. *)
Definition addRecord (selectedBranch : string) (productStats : Js.obj Stat.t)
    (item : Item.t) : Js.obj Stat.t :=
  let productStats :=
    match Js.get productStats (Item.Menu item) with
    | Js.Undefined =>
        Js.put productStats (Item.Menu item)
          (Stat.mk (Item.Menu item) 0 0 0 selectedBranch)
    | Js.Own _ | Js.Inherited => productStats
    end in
  Js.adjust productStats (Item.Menu item)
    (fun s =>
       Stat.mk (Stat.Menu s)
         (Stat.Total s + Js.or0 (Item.Total item))
         (Stat.Qty s + Js.or0 (Item.Qty item))
         (Stat.Margin s + Js.or0 (Item.Margin item))
         (Stat.branch s))%Qc.

Definition productStatsOf (selectedBranch : string) (branchData : list Item.t)
    : Js.obj Stat.t :=
  fold_left (addRecord selectedBranch) branchData Js.empty.

(** The callback of [Object.values(productStats).map]. *)
Definition withPercentages (product : Stat.t) : Product.t :=
  Product.mk (Stat.Menu product) (Stat.Total product) (Stat.Qty product)
    (Stat.Margin product) (Stat.branch product)
    (if Js.gtb (Stat.Total product) 0
     then Stat.Margin product / Stat.Total product * num 100 else 0)%Qc
    (if Js.gtb (Stat.Qty product) 0
     then Stat.Total product / Stat.Qty product else 0)%Qc.

Definition productsOf (selectedBranch : string) (branchData : list Item.t)
    : list Product.t :=
  map withPercentages (Js.values (productStatsOf selectedBranch branchData)).

Inductive SortField : Type := F_Total | F_Qty | F_Margin_Percentage.

Definition sortFieldOf (sortBy : string) : SortField :=
  if sortBy =? "quantity" then F_Qty
  else if sortBy =? "margin" then F_Margin_Percentage
  else F_Total.

(** [product[sortField]] *)
Definition field (sortField : SortField) (product : Product.t) : Qc :=
  match sortField with
  | F_Total => Product.Total product
  | F_Qty => Product.Qty product
  | F_Margin_Percentage => Product.Margin_Percentage product
  end.

Definition descending (sortField : SortField) (a b : Product.t) : Qc :=
  (field sortField b - field sortField a)%Qc.

Definition topProductsOf (sortBy count : string) (products : list Product.t)
    : list Product.t :=
  Js.slice0 (Js.sort (descending (sortFieldOf sortBy)) products)
    (if count =? "all" then Some (Z.of_nat (List.length products))
     else Js.parseInt count).

(** ** The rows of the table *)

Record Row : Type := {
  rank : nat;
  rankBadge : string;
  name : string;
  revenue : Qc;
  quantity : Qc;
  marginBadge : string;
  marginPercentage : Qc;
  avgPrice : Qc;
  statusBadge : string;
  statusText : string
}.

Definition rankBadgeOf (index : nat) : string :=
  if (index <? 3)%nat then "status-excellent"
  else if (index <? 10)%nat then "status-good"
  else "status-fair".

Definition marginBadgeOf (marginPct : Qc) : string :=
  if Js.gtb marginPct (num 30) then "status-excellent"
  else if Js.gtb marginPct (num 20) then "status-good"
  else if Js.gtb marginPct (num 10) then "status-fair"
  else "status-poor".

(** The pair (statusBadge, statusText). *)
Definition statusOf (index : nat) (marginPct : Qc) : string * string :=
  if (index <? 3)%nat && Js.gtb marginPct (num 20)
  then ("status-excellent", "Star Product")
  else if (index <? 10)%nat && Js.gtb marginPct (num 15)
  then ("status-good", "Good Performer")
  else if Js.gtb marginPct (num 10)
  then ("status-fair", "Average")
  else ("status-poor", "Needs Review").

Definition rowOf (index : nat) (product : Product.t) : Row :=
  {| rank := index + 1;
     rankBadge := rankBadgeOf index;
     name := Js.ellipsis 50 (Product.Menu product);
     revenue := Product.Total product;
     quantity := Product.Qty product;
     marginBadge := marginBadgeOf (Product.Margin_Percentage product);
     marginPercentage := Product.Margin_Percentage product;
     avgPrice := Product.Avg_Price product;
     statusBadge := fst (statusOf index (Product.Margin_Percentage product));
     statusText := snd (statusOf index (Product.Margin_Percentage product)) |}.

(** [topProducts.forEach((product, index) => ...)], from [index] on. *)
Fixpoint rowsFrom (index : nat) (topProducts : list Product.t) : list Row :=
  match topProducts with
  | [] => []
  | product :: rest => rowOf index product :: rowsFrom (S index) rest
  end.

(** ** updateTopPerformersSummary *)

Record Summary : Type := {
  sortText : string;
  top3 : list string;
  totalRevenue : Qc;
  avgMargin : Qc;
  showing : nat;
  outOf : nat
}.

Inductive SummaryView : Type :=
| SummaryInitial
| SummaryPickBranch
| SummaryNoProducts
| SummaryShown (s : Summary).

Definition updateTopPerformersSummary (summaryContent : bool)
    (topProducts : list Product.t) (selectedBranch sortBy : string)
    (totalProducts : nat) (before : SummaryView) : SummaryView :=
  if negb summaryContent || (selectedBranch =? EmptyString) then
    if summaryContent then SummaryPickBranch else before
  else if (List.length topProducts =? 0)%nat then SummaryNoProducts
  else
    SummaryShown
      {| sortText :=
           if sortBy =? "revenue" then "revenue"
           else if sortBy =? "quantity" then "quantity" else "margin";
         top3 :=
           map (fun p =>
                  (substring 0 35 (Product.Menu p) ++
                   (if (35 <? String.length (Product.Menu p))%nat
                    then "..." else EmptyString))%string)
               (firstn 3 topProducts);
         totalRevenue := Js.sum Product.Total topProducts;
         avgMargin :=
           (Js.sum Product.Margin_Percentage topProducts
            / Js.of_nat (List.length topProducts))%Qc;
         showing := List.length topProducts;
         outOf :=
           if (totalProducts =? 0)%nat then List.length topProducts
           else totalProducts |}.

(** ** The page *)

Inductive TableView : Type :=
| TableInitial
| TableSelectBranch
| TableNoData (selectedBranch : string)
| TableShown (selectedBranch : string) (rows : list Row) (shown total : nat).

(** One slice of the pie handed to Plotly. *)
Record Component : Type := {
  label : string;
  value : Qc;
  color : string
}.

Inductive ChartView : Type :=
| ChartInitial
| ChartNoData
| ChartInvalidData
| ChartPie (components : list Component) (productName branchName : string)
    (totalRevenue : Qc) (records : nat).

Record Metrics : Type := {
  recordsFound : nat;
  totalRevenueProduct : Qc;
  totalQtyProduct : Qc;
  avgMarginProduct : Qc;
  branchesAvailable : string
}.

Record Page : Type := {
  table : TableView;
  summary : SummaryView;
  metrics : option Metrics;
  chart : ChartView
}.

Definition initialPage : Page :=
  {| table := TableInitial; summary := SummaryInitial;
     metrics := None; chart := ChartInitial |}.

Definition updateTopPerformersTable (dom : Dom) (allData : list Item.t)
    (page : Page) : Page :=
  let selectedBranch := branchSelect dom in
  let count := topCount dom in
  let sortBy := sortBy dom in
  if negb (top_performers_table dom) || (List.length allData =? 0)%nat then page
  else if selectedBranch =? EmptyString then
    {| table := TableSelectBranch; summary := summary page;
       metrics := metrics page; chart := chart page |}
  else
    let branchData := branchDataOf allData selectedBranch in
    if (List.length branchData =? 0)%nat then
      {| table := TableNoData selectedBranch; summary := summary page;
         metrics := metrics page; chart := chart page |}
    else
      let products := productsOf selectedBranch branchData in
      let topProducts := topProductsOf sortBy count products in
      {| table :=
           TableShown selectedBranch (rowsFrom 0 topProducts)
             (List.length topProducts) (List.length products);
         summary :=
           updateTopPerformersSummary (summary_content dom) topProducts
             selectedBranch sortBy (List.length products) (summary page);
         metrics := metrics page;
         chart := chart page |}.

(** ** Product details *)

(** [ChartPie] holds what is handed to [Plotly.newPlot]: the slices, the two
    lines of the title and the annotation.  The drawing, and the cards shown
    instead when Plotly throws, are the renderer's. *)
Definition createEnhancedProductChart (productData : list Item.t)
    (productName branchName : string) : ChartView :=
  if (List.length productData =? 0)%nat then ChartNoData
  else
    let totalRevenue := Js.sum (fun item => Js.or0 (Item.Total item)) productData in
    let totalMargin := Js.sum (fun item => Js.or0 (Item.Margin item)) productData in
    let totalCogs := Js.sum (fun item => Js.or0 (Item.COGS_Total item)) productData in
    let netRevenue := (totalRevenue - totalCogs)%Qc in
    let components :=
      filter (fun item => Js.gtb (value item) 0)
        [ {| label := "Net Revenue"; value := netRevenue; color := "#2E8B57" |};
          {| label := "Margin (Profit)"; value := totalMargin; color := "#4CAF50" |};
          {| label := "COGS (Cost)"; value := totalCogs; color := "#FF6B6B" |} ] in
    if (List.length components =? 0)%nat then ChartInvalidData
    else ChartPie components productName branchName totalRevenue
           (List.length productData).

Definition showProductDetails (productName selectedBranch : string)
    (allData : list Item.t) (page : Page) : Page :=
  if (List.length allData =? 0)%nat || (selectedBranch =? EmptyString) then page
  else
    let productData :=
      filter (fun item =>
                (Item.Menu item =? productName) && (Item.Branch item =? selectedBranch))
        allData in
    if (List.length productData =? 0)%nat then page
    else
      let totalRevenue := Js.sum (fun item => Js.or0 (Item.Total item)) productData in
      let totalQty := Js.sum (fun item => Js.or0 (Item.Qty item)) productData in
      let totalMargin := Js.sum (fun item => Js.or0 (Item.Margin item)) productData in
      let avgMargin :=
        (if Js.gtb totalRevenue 0 then totalMargin / totalRevenue * num 100 else 0)%Qc in
      {| table := table page;
         summary := summary page;
         metrics :=
           Some {| recordsFound := List.length productData;
                   totalRevenueProduct := totalRevenue;
                   totalQtyProduct := totalQty;
                   avgMarginProduct := avgMargin;
                   branchesAvailable := selectedBranch |};
         chart := createEnhancedProductChart productData productName selectedBranch |}.

(** ** Further built-ins: Set and the default sort *)

Module JsArray.

(** [[...new Set(l)]]: the distinct elements in the order of their first
    insertion; [set.size] is the length of this list. *)
Definition add (s : list string) (x : string) : list string :=
  if existsb (String.eqb x) s then s else s ++ [x].

Definition newSet (l : list string) : list string := fold_left add l [].

(** The comparison [l.sort()] uses when it is given no comparator: strings
    by their code units, as -1, 0 or 1. *)
Definition defaultCompare (a b : string) : Qc :=
  match String.compare a b with
  | Lt => Q2Qc (-1)
  | Eq => Q2Qc 0
  | Gt => Q2Qc 1
  end.

Definition sortDefault (l : list string) : list string := Js.sort defaultCompare l.

End JsArray.

(** ** updateSelectionInfo *)

(** The elements the functions below test before they write to them.  An
    element that is written to without a test (the selects, the product
    select, the detail panel, the metric cards) is taken to exist. *)
Record Elements : Type := {
  selection_text : bool;
  stat_products : bool;
  stat_records : bool;
  stat_branches : bool;
  branch_info_text : bool
}.

Inductive SelectionText : Type :=
| SelectionTextInitial
| SelectionTextUnique
| SelectionTextBranch (selectedBranch : string).

Inductive StatCell : Type :=
| CellInitial
| CellNA
| CellCount (n : nat)
| CellOneSelected.

Record SelectionInfo : Type := {
  selectionText : SelectionText;
  statProducts : StatCell;
  statRecords : StatCell;
  statBranches : StatCell
}.

Definition initialInfo : SelectionInfo :=
  {| selectionText := SelectionTextInitial; statProducts := CellInitial;
     statRecords := CellInitial; statBranches := CellInitial |}.

Definition updateSelectionInfo (dom : Dom) (els : Elements) (allData : list Item.t)
    (info : SelectionInfo) : SelectionInfo :=
  let selectedBranch := branchSelect dom in
  if negb (selection_text els) || (List.length allData =? 0)%nat then info
  else if selectedBranch =? EmptyString then
    {| selectionText := SelectionTextUnique;
       statProducts := if stat_products els then CellNA else statProducts info;
       statRecords := if stat_records els then CellNA else statRecords info;
       statBranches := if stat_branches els then CellNA else statBranches info |}
  else
    let branchData := branchDataOf allData selectedBranch in
    let uniqueProducts :=
      List.length (JsArray.newSet (map Item.Menu branchData)) in
    {| selectionText := SelectionTextBranch selectedBranch;
       statProducts :=
         if stat_products els then CellCount uniqueProducts else statProducts info;
       statRecords :=
         if stat_records els then CellCount (List.length branchData)
         else statRecords info;
       statBranches :=
         if stat_branches els then CellOneSelected else statBranches info |}.

(** ** updateProductDropdown *)

Record ProductOption : Type := {
  optionValue : string;
  optionText : string
}.

(** The product select: as served, the disabled placeholder, or the
    placeholder followed by the options of a branch, enabled. *)
Inductive DropdownView : Type :=
| DropdownInitial
| DropdownPickBranch
| DropdownProducts (options : list ProductOption).

Inductive BranchInfoView : Type :=
| BranchInfoInitial
| BranchInfoPick
| BranchInfoMenus (selectedBranch : string) (available : nat).

Record Picker : Type := {
  dropdown : DropdownView;
  branchInfo : BranchInfoView
}.

Definition initialPicker : Picker :=
  {| dropdown := DropdownInitial; branchInfo := BranchInfoInitial |}.

Definition updateProductDropdown (dom : Dom) (els : Elements) (allData : list Item.t)
    (picker : Picker) : Picker :=
  let selectedBranch := branchSelect dom in
  if selectedBranch =? EmptyString then
    {| dropdown := DropdownPickBranch;
       branchInfo := if branch_info_text els then BranchInfoPick else branchInfo picker |}
  else
    let branchData := branchDataOf allData selectedBranch in
    let branchProducts :=
      JsArray.sortDefault (JsArray.newSet (map Item.Menu branchData)) in
    {| dropdown :=
         DropdownProducts
           (map (fun product =>
                   {| optionValue := product;
                      optionText := Js.ellipsis 60 product |})
                branchProducts);
       branchInfo :=
         if branch_info_text els
         then BranchInfoMenus selectedBranch (List.length branchProducts)
         else branchInfo picker |}.

(** ** initializeProductAnalysis and its listeners *)

Inductive Display : Type := DisplayInitial | DisplayBlock | DisplayNone.

Record Screen : Type := {
  page : Page;
  info : SelectionInfo;
  picker : Picker;
  detailDisplay : Display
}.

Definition initialScreen : Screen :=
  {| page := initialPage; info := initialInfo; picker := initialPicker;
     detailDisplay := DisplayInitial |}.

Definition withBranch (dom : Dom) (v : string) : Dom :=
  {| branchSelect := v; topCount := topCount dom; sortBy := sortBy dom;
     top_performers_table := top_performers_table dom;
     summary_content := summary_content dom |}.

Definition withCount (dom : Dom) (v : string) : Dom :=
  {| branchSelect := branchSelect dom; topCount := v; sortBy := sortBy dom;
     top_performers_table := top_performers_table dom;
     summary_content := summary_content dom |}.

Definition withSort (dom : Dom) (v : string) : Dom :=
  {| branchSelect := branchSelect dom; topCount := topCount dom; sortBy := v;
     top_performers_table := top_performers_table dom;
     summary_content := summary_content dom |}.

(** The listener of [branchSelect]. *)
Definition onBranchChange (dom : Dom) (els : Elements) (productData : list Item.t)
    (s : Screen) : Screen :=
  {| page := updateTopPerformersTable dom productData (page s);
     info := updateSelectionInfo dom els productData (info s);
     picker := updateProductDropdown dom els productData (picker s);
     detailDisplay := detailDisplay s |}.

(** The listener of [topCount], and of [sortBy]. *)
Definition onRankingChange (dom : Dom) (productData : list Item.t) (s : Screen) : Screen :=
  if branchSelect dom =? EmptyString then s
  else
    {| page := updateTopPerformersTable dom productData (page s);
       info := info s; picker := picker s; detailDisplay := detailDisplay s |}.

(** The listener of [analysisProduct]; [selectedProduct] is its value. *)
Definition onProductChange (selectedProduct : string) (dom : Dom)
    (productData : list Item.t) (s : Screen) : Screen :=
  let selectedBranch := branchSelect dom in
  if negb (selectedProduct =? EmptyString) && negb (selectedBranch =? EmptyString) then
    {| page := showProductDetails selectedProduct selectedBranch productData (page s);
       info := info s; picker := picker s; detailDisplay := DisplayBlock |}
  else
    {| page := page s; info := info s; picker := picker s;
       detailDisplay := DisplayNone |}.

(** What the user does: a new value of one of the four selects. *)
Inductive Event : Type :=
| BranchChange (v : string)
| CountChange (v : string)
| SortChange (v : string)
| ProductChange (v : string).

Record Session : Type := {
  selected : Dom;
  screen : Screen
}.

(** The select takes its new value, then its listener runs. *)
Definition handle (els : Elements) (productData : list Item.t) (e : Event)
    (st : Session) : Session :=
  match e with
  | BranchChange v =>
      let dom := withBranch (selected st) v in
      {| selected := dom; screen := onBranchChange dom els productData (screen st) |}
  | CountChange v =>
      let dom := withCount (selected st) v in
      {| selected := dom; screen := onRankingChange dom productData (screen st) |}
  | SortChange v =>
      let dom := withSort (selected st) v in
      {| selected := dom; screen := onRankingChange dom productData (screen st) |}
  | ProductChange v =>
      {| selected := selected st;
         screen := onProductChange v (selected st) productData (screen st) |}
  end.

(** [initializeProductAnalysis]: [selects] tells whether the three selects
    of the ranking exist, [data] is [window.productAnalysisData].  The
    result tells whether the listeners are registered, and the screen after
    the initial load. *)
Definition initializeProductAnalysis (selects : bool) (dom : Dom) (els : Elements)
    (data : option (list Item.t)) (s : Screen) : bool * Screen :=
  if negb selects then (false, s)
  else
    match data with
    | Some productData =>
        (true,
         {| page := page s;
            info := updateSelectionInfo dom els productData (info s);
            picker := picker s; detailDisplay := detailDisplay s |})
    | None => (false, s)
    end.

(** The events of a session, one after the other. *)
Definition run (els : Elements) (productData : list Item.t) (events : list Event)
    (st : Session) : Session :=
  fold_left (fun st e => handle els productData e st) events st.

(** * Vocabulary of the properties *)

(** ** Sequences *)

(** [s] is [l] with some elements left out, order kept. *)
Inductive Subsequence {A : Type} : list A -> list A -> Prop :=
| Subsequence_nil : Subsequence [] []
| Subsequence_keep x s l : Subsequence s l -> Subsequence (x :: s) (x :: l)
| Subsequence_drop x s l : Subsequence s l -> Subsequence s (x :: l).

(** [a] comes before [b] in [l]. *)
Definition precedes {A : Type} (a b : A) (l : list A) : Prop :=
  exists l1 l2 l3, l = l1 ++ a :: l2 ++ b :: l3.

(** Non-increasing values of [key]. *)
Definition Descending {A : Type} (key : A -> Qc) (l : list A) : Prop :=
  StronglySorted (fun a b => (key b <= key a)%Qc) l.

(** The elements of [l] whose key is [v]. *)
Definition withKey {A : Type} (key : A -> Qc) (v : Qc) (l : list A) : list A :=
  filter (fun a => if Qc_eq_dec (key a) v then true else false) l.

(** [l] without the repetitions of an element already met. *)
Fixpoint first_seen (l : list string) : list string :=
  match l with
  | [] => []
  | k :: r => k :: filter (fun k' => negb (k' =? k)) (first_seen r)
  end.

(** The sum of a list of numbers. *)
Definition sumOf (l : list Qc) : Qc := fold_right Qcplus 0%Qc l.

(** ** Totals of records *)

(** The total of a field, missing values counted as 0. *)
Definition totalOf (f : Item.t -> option Qc) (data : list Item.t) : Qc :=
  Js.sum (fun item => Js.or0 (f item)) data.

(** The records of product [k], and the total of one of their fields. *)
Definition recordsOf (k : string) (data : list Item.t) : list Item.t :=
  filter (fun item => Item.Menu item =? k) data.

Definition groupTotal (f : Item.t -> option Qc) (k : string) (data : list Item.t) : Qc :=
  totalOf f (recordsOf k data).

(** The value of [productStats] for product [k] once [data] is read. *)
Definition statFor (selectedBranch : string) (data : list Item.t) (k : string) : Stat.t :=
  Stat.mk k (groupTotal Item.Total k data) (groupTotal Item.Qty k data)
    (groupTotal Item.Margin k data) selectedBranch.

(** The records whose product name is no member of Object.prototype, and
    their product names. *)
Definition ownRecords (data : list Item.t) : list Item.t :=
  filter (fun item => negb (Js.inherited (Item.Menu item))) data.

Definition ownMenus (data : list Item.t) : list string :=
  filter (fun k => negb (Js.inherited k)) (map Item.Menu data).

(** ** Keys of productStats *)

(** Product names that are array indices, and their numeric value. *)
Definition isIndex (k : string) : bool :=
  match Js.array_index k with Some _ => true | None => false end.

Definition indexOf (k : string) : N :=
  match Js.array_index k with Some n => n | None => 0%N end.

(** Array-index names in ascending numeric order. *)
Definition Ascending (ks : list string) : Prop :=
  StronglySorted (fun k k' => (indexOf k <= indexOf k')%N) ks.

(** The keys of [productStats], record by record. *)
Fixpoint insertKey (k : string) (ks : list string) : list string :=
  match ks with
  | [] => [k]
  | k' :: r => if Js.before k k' then k :: k' :: r else k' :: insertKey k r
  end.

Definition addKey (ks : list string) (k : string) : list string :=
  if existsb (String.eqb k) ks || Js.inherited k then ks else insertKey k ks.

Definition keysOf (data : list Item.t) : list string :=
  fold_left addKey (map Item.Menu data) [].

(** The object whose keys are [ks] and whose value at [k] is [F k]. *)
Definition tabulate {V : Type} (F : string -> V) (ks : list string) : Js.obj V :=
  map (fun k => (k, F k)) ks.

(** ** Selections *)

(** The sort-key mapping in the words of the specification: revenue,
    quantity and margin name a field, any other key is InvalidSortKey
    ([None]). *)
Definition specSortField (sortBy : string) : option SortField :=
  if sortBy =? "revenue" then Some F_Total
  else if sortBy =? "quantity" then Some F_Qty
  else if sortBy =? "margin" then Some F_Margin_Percentage
  else None.

Definition withSortBy (dom : Dom) (key : string) : Dom :=
  {| branchSelect := branchSelect dom; topCount := topCount dom; sortBy := key;
     top_performers_table := top_performers_table dom;
     summary_content := summary_content dom |}.

(** A document with both containers and the given values of the selects. *)
Definition selects (branch count key : string) : Dom :=
  {| branchSelect := branch; topCount := count; sortBy := key;
     top_performers_table := true; summary_content := true |}.

(** The decimal numeral of [k], the value of an option of the count select. *)
Definition decimal (k : nat) : string :=
  DecimalString.NilEmpty.string_of_uint (Nat.to_uint k).

(** The product names of the rows of a table that is shown. *)
Definition shownNames (page : Page) : option (list string) :=
  match table page with
  | TableShown _ rows _ _ => Some (map name rows)
  | _ => None
  end.

(** ** The slices of the breakdown *)

Definition netRevenueSlice (productData : list Item.t) : Component :=
  {| label := "Net Revenue";
     value := (totalOf Item.Total productData - totalOf Item.COGS_Total productData)%Qc;
     color := "#2E8B57" |}.

Definition marginSlice (productData : list Item.t) : Component :=
  {| label := "Margin (Profit)";
     value := totalOf Item.Margin productData;
     color := "#4CAF50" |}.

Definition cogsSlice (productData : list Item.t) : Component :=
  {| label := "COGS (Cost)";
     value := totalOf Item.COGS_Total productData;
     color := "#FF6B6B" |}.

(** ** Sample records *)

Definition sale (branch menu : string) (qty total margin : Z) : Item.t :=
  Item.mk branch menu (Some (num qty)) (Some (num total)) (Some (num margin)) None.

Definition twoProducts : list Item.t :=
  [ sale "A" "Nasi Goreng" 5 100 10; sale "A" "Ayam Bakar" 1 300 90 ].

(** Three products, two of them with the same revenue. *)
Definition tiedRevenue : list Item.t :=
  [ sale "A" "Soto" 2 100 10; sale "A" "Sate" 3 100 40; sale "A" "Es Teh" 9 500 50 ].

(** Numbered menu entries, and a record of another branch. *)
Definition numbered : list Item.t :=
  [ sale "A" "Nasi Goreng" 2 100 20; sale "A" "7" 3 150 30;
    sale "B" "Bakso" 1 40 4; sale "A" "3" 1 40 4 ].

(** A return: negative quantity, revenue and margin. *)
Definition refund : Item.t := sale "A" "Retur" (-1) (-100) (-20).

(** Revenue 1000, cost of goods 1200, margin -200. *)
Definition lossMaking : Item.t :=
  Item.mk "A" "Es Teh" (Some (num 1)) (Some (num 1000)) (Some (num (-200)))
    (Some (num 1200)).

(** A product named as a member of Object.prototype. *)
Definition shadowed : list Item.t := [ sale "A" "constructor" 1 100 10 ].

(** The aggregate of product [k] of branch A. *)
Definition aggregateOf (data : list Item.t) (k : string) : Product.t :=
  withPercentages (statFor "A" data k).

(** ** Sessions *)

(** A document with every tested element. *)
Definition allElements : Elements :=
  {| selection_text := true; stat_products := true; stat_records := true;
     stat_branches := true; branch_info_text := true |}.

(** The table computed from the current values of the selects. *)
Definition tableFor (dom : Dom) (productData : list Item.t) : TableView :=
  table (updateTopPerformersTable dom productData initialPage).

(** The table container exists, there are records, and the table on the
    screen is the one computed from the selects. *)
Definition Following (productData : list Item.t) (st : Session) : Prop :=
  top_performers_table (selected st) = true /\ productData <> [] /\
  table (page (screen st)) = tableFor (selected st) productData.

(** Strings in ascending order of their code units. *)
Definition AscendingNames (l : list string) : Prop :=
  StronglySorted (fun a b => String.compare a b <> Gt) l.

(** * Properties *)

(** ** Numbers *)

Lemma gtb_true_iff (a b : Qc) : Js.gtb a b = true <-> (b < a)%Qc.
Proof.
  unfold Js.gtb. rewrite (Qcgt_alt a b).
  destruct (a ?= b)%Qc; split; congruence.
Qed.

Lemma gtb_false_iff (a b : Qc) : Js.gtb a b = false <-> (a <= b)%Qc.
Proof.
  unfold Js.gtb. rewrite (Qcle_alt a b).
  destruct (a ?= b)%Qc; split; congruence.
Qed.

Lemma gtb_reflect (a b : Qc) : reflect (b < a)%Qc (Js.gtb a b).
Proof.
  destruct (Js.gtb a b) eqn:E; constructor.
  - now apply gtb_true_iff.
  - apply gtb_false_iff in E. now apply Qcle_not_lt.
Qed.

(** ** The branch filter *)

Lemma branchDataOf_subsequence allData selectedBranch :
  Subsequence (branchDataOf allData selectedBranch) allData.
Proof.
  induction allData as [|item rest IH]; simpl.
  - constructor.
  - destruct (Item.Branch item =? selectedBranch); now constructor.
Qed.

Lemma branchDataOf_In allData selectedBranch item :
  In item (branchDataOf allData selectedBranch) <->
  In item allData /\ Item.Branch item = selectedBranch.
Proof.
  unfold branchDataOf. rewrite filter_In, String.eqb_eq. tauto.
Qed.

Lemma branchDataOf_greatest allData selectedBranch s :
  Subsequence s allData ->
  (forall item, In item s -> Item.Branch item = selectedBranch) ->
  Subsequence s (branchDataOf allData selectedBranch).
Proof.
  induction 1 as [|x s l _ IH|x s l _ IH]; intros Hs; simpl.
  - constructor.
  - rewrite (proj2 (String.eqb_eq _ _) (Hs x (or_introl eq_refl))).
    constructor. apply IH. intros; apply Hs; now right.
  - destruct (Item.Branch x =? selectedBranch); [constructor|]; now apply IH.
Qed.

(** C9: the branch filter returns exactly the records of the selected
    branch, in their order in the record sequence: its output is a
    subsequence of the input, a record is in the output if and only if it is
    in the input with a [Branch] equal to [selectedBranch] (string equality,
    case and all), and every subsequence of such records is a subsequence of
    the output. *)
Theorem branch_filter_exact :
  forall (allData : list Item.t) (selectedBranch : string),
    Subsequence (branchDataOf allData selectedBranch) allData /\
    (forall item,
        In item (branchDataOf allData selectedBranch) <->
        In item allData /\ Item.Branch item = selectedBranch) /\
    (forall s,
        Subsequence s allData ->
        (forall item, In item s -> Item.Branch item = selectedBranch) ->
        Subsequence s (branchDataOf allData selectedBranch)).
Proof.
  intros allData selectedBranch. split; [|split].
  - apply branchDataOf_subsequence.
  - intros item. apply branchDataOf_In.
  - apply branchDataOf_greatest.
Qed.

Lemma branch_filter_exact_witness :
  map Item.Menu (branchDataOf numbered "A") = ["Nasi Goreng"; "7"; "3"] /\
  Subsequence (branchDataOf numbered "A") numbered /\
  ~ In (sale "B" "Bakso" 1 40 4) (branchDataOf numbered "A").
Proof.
  destruct (branch_filter_exact numbered "A") as (S & I & _).
  split; [reflexivity|]. split; [exact S|].
  intros H. apply I in H. destruct H as [_ H]. discriminate H.
Defined.

(** The filter is the one [updateTopPerformersTable] runs: a table that is
    shown is the table of the filtered records. *)
Lemma table_of_branch_records dom allData page :
  top_performers_table dom = true ->
  branchSelect dom <> EmptyString ->
  branchDataOf allData (branchSelect dom) <> [] ->
  table (updateTopPerformersTable dom allData page) =
  let products := productsOf (branchSelect dom) (branchDataOf allData (branchSelect dom)) in
  let topProducts := topProductsOf (sortBy dom) (topCount dom) products in
  TableShown (branchSelect dom) (rowsFrom 0 topProducts)
    (List.length topProducts) (List.length products).
Proof.
  intros Hc Hb Hd. unfold updateTopPerformersTable. rewrite Hc. simpl.
  destruct allData as [|i0 rest]; [now elim Hd|].
  cbn [List.length Nat.eqb].
  destruct (String.eqb_spec (branchSelect dom) EmptyString) as [E|_]; [now elim Hb|].
  destruct (branchDataOf (i0 :: rest) (branchSelect dom)) eqn:E; [now elim Hd|].
  reflexivity.
Qed.

(** ** Composite status *)

Lemma rowsFrom_nth topProducts : forall start i p,
  nth_error topProducts i = Some p ->
  nth_error (rowsFrom start topProducts) i = Some (rowOf (start + i)%nat p).
Proof.
  induction topProducts as [|q rest IH]; intros start [|i] p H; simpl in *;
    try discriminate.
  - injection H as ->. now rewrite Nat.add_0_r.
  - rewrite (IH (S start) i p H). do 2 f_equal. lia.
Qed.

(** C2: the status of the entry at 1-based position [i + 1] follows the
    first rule that matches, in this order: position <= 3 and margin
    percentage > 20, Star Product; position <= 10 and margin percentage > 15,
    Good Performer; margin percentage > 10, Average; otherwise Needs Review.
    Position 2 with a margin percentage of 25 is a Star Product. *)
Theorem composite_status_first_match :
  (forall (topProducts : list Product.t) (i : nat) (p : Product.t),
      nth_error topProducts i = Some p ->
      exists row,
        nth_error (rowsFrom 0 topProducts) i = Some row /\
        rank row = (i + 1)%nat /\
        let position := (i + 1)%nat in
        let m := Product.Margin_Percentage p in
        let star := (position <= 3)%nat /\ (num 20 < m)%Qc in
        let good := (position <= 10)%nat /\ (num 15 < m)%Qc in
        let average := (num 10 < m)%Qc in
        (star -> statusText row = "Star Product") /\
        (~ star -> good -> statusText row = "Good Performer") /\
        (~ star -> ~ good -> average -> statusText row = "Average") /\
        (~ star -> ~ good -> ~ average -> statusText row = "Needs Review")) /\
  snd (statusOf (2 - 1) (num 25)) = "Star Product".
Proof.
  split; [|reflexivity].
  intros topProducts i p H.
  exists (rowOf i p). split; [exact (rowsFrom_nth topProducts 0 i p H)|].
  split; [reflexivity|].
  cbn zeta. unfold rowOf, statusOf; cbn [statusText].
  destruct (Nat.ltb_spec i 3) as [H3|H3];
    destruct (Nat.ltb_spec i 10) as [H10|H10];
    destruct (gtb_reflect (Product.Margin_Percentage p) (num 20)) as [M20|M20];
    destruct (gtb_reflect (Product.Margin_Percentage p) (num 15)) as [M15|M15];
    destruct (gtb_reflect (Product.Margin_Percentage p) (num 10)) as [M10|M10];
    cbn [andb snd];
    repeat split; intros; try reflexivity;
    try match goal with
        | H : ~ (_ /\ _) |- _ => exfalso; apply H; split; [lia|assumption]
        | H : _ /\ _ |- _ => exfalso; destruct H; (lia || contradiction)
        end; try contradiction.
Qed.

Lemma composite_status_first_match_witness :
  nth_error (productsOf "A" tiedRevenue) 1 = Some (aggregateOf tiedRevenue "Sate") /\
  exists row,
    nth_error (rowsFrom 0 (productsOf "A" tiedRevenue)) 1 = Some row /\
    rank row = 2%nat /\
    statusText row = "Star Product".
Proof.
  assert (nth_error (productsOf "A" tiedRevenue) 1 = Some (aggregateOf tiedRevenue "Sate"))
    as H by reflexivity.
  split; [exact H|].
  destruct (proj1 composite_status_first_match (productsOf "A" tiedRevenue) 1%nat
              (aggregateOf tiedRevenue "Sate") H) as (row & Hrow & Hrank & Hstar & _).
  exists row. split; [exact Hrow|]. split; [exact Hrank|].
  apply Hstar. split; [simpl; lia|reflexivity].
Defined.

(** ** Product details *)

(** C7: with at least one record, the chart gets the slices among net
    revenue (total revenue - total COGS), margin and COGS whose value is
    strictly positive, in that order and no other; when none is positive the
    outcome is the invalid-data message, which is not the no-data message.
    Revenue 1000, COGS 1200, margin -200 gives the single COGS slice. *)
Theorem breakdown_keeps_positive_components :
  (forall productData : list Item.t,
      productData <> [] ->
      let slices :=
        [netRevenueSlice productData; marginSlice productData; cogsSlice productData] in
      forall productName branchName : string,
      match createEnhancedProductChart productData productName branchName with
      | ChartPie components _ _ _ _ =>
          components <> [] /\
          Subsequence components slices /\
          (forall c, In c components <-> In c slices /\ (0 < value c)%Qc)
      | ChartInvalidData => forall c, In c slices -> (value c <= 0)%Qc
      | ChartNoData | ChartInitial => False
      end) /\
  ChartInvalidData <> ChartNoData /\
  createEnhancedProductChart [lossMaking] "Es Teh" "A" =
    ChartPie [cogsSlice [lossMaking]] "Es Teh" "A" (num 1000) 1 /\
  value (cogsSlice [lossMaking]) = num 1200.
Proof.
  split; [|split; [discriminate|split; reflexivity]].
  intros productData Hne slices productName branchName.
  unfold createEnhancedProductChart.
  destruct productData as [|i0 rest]; [now elim Hne|].
  cbn [List.length Nat.eqb].
  fold (totalOf Item.Total (i0 :: rest)) (totalOf Item.Margin (i0 :: rest))
       (totalOf Item.COGS_Total (i0 :: rest)).
  set (pd := i0 :: rest) in *.
  change (filter _ _) with (filter (fun item => Js.gtb (value item) 0) slices).
  destruct (filter (fun item => Js.gtb (value item) 0) slices) as [|c0 cs] eqn:E;
    cbn [List.length Nat.eqb].
  - intros c Hc. apply gtb_false_iff.
    destruct (Js.gtb (value c) 0) eqn:G; [|reflexivity].
    assert (In c []) as []. rewrite <- E. apply filter_In. now split.
  - split; [discriminate|]. rewrite <- E. split.
    + clear E. induction slices as [|s r IH]; simpl; [constructor|].
      destruct (Js.gtb (value s) 0); now constructor.
    + intros c. rewrite filter_In, gtb_true_iff. tauto.
Qed.

Lemma breakdown_keeps_positive_components_witness :
  [lossMaking] <> [] /\
  match createEnhancedProductChart [lossMaking] "Es Teh" "A" with
  | ChartPie components _ _ _ _ =>
      forall c, In c components <->
                In c [netRevenueSlice [lossMaking]; marginSlice [lossMaking];
                      cogsSlice [lossMaking]] /\ (0 < value c)%Qc
  | _ => False
  end.
Proof.
  assert ([lossMaking] <> []) as H by discriminate.
  split; [exact H|].
  pose proof (proj1 breakdown_keeps_positive_components [lossMaking] H
                "Es Teh" "A") as P.
  cbn zeta in P.
  rewrite (proj1 (proj2 (proj2 breakdown_keeps_positive_components))) in *.
  destruct P as (_ & _ & P). exact P.
Defined.

(** ** The keys and values of productStats *)

Lemma existsb_eqb_In (k : string) (ks : list string) :
  existsb (String.eqb k) ks = true <-> In k ks.
Proof.
  rewrite existsb_exists. split.
  - intros (x & Hx & E). apply String.eqb_eq in E. now subst.
  - intros H. exists k. split; [assumption|apply String.eqb_refl].
Qed.

Lemma own_None_iff {V} (o : Js.obj V) (k : string) :
  Js.own o k = None <-> ~ In k (map fst o).
Proof.
  induction o as [|[k' v] r IH]; simpl.
  - tauto.
  - destruct (String.eqb_spec k k') as [->|N].
    + split; [discriminate|]. intros H. elim H. now left.
    + rewrite IH. split; [intros H [E|I]; [congruence|tauto]|tauto].
Qed.

Lemma own_Some_In {V} (o : Js.obj V) (k : string) (v : V) :
  Js.own o k = Some v -> In k (map fst o).
Proof.
  intros H. destruct (in_dec string_dec k (map fst o)) as [I|N]; [assumption|].
  apply own_None_iff in N. congruence.
Qed.

Lemma adjust_absent {V} (o : Js.obj V) (k : string) (f : V -> V) :
  ~ In k (map fst o) -> Js.adjust o k f = o.
Proof.
  induction o as [|[k' v] r IH]; simpl; intros H; [reflexivity|].
  destruct (String.eqb_spec k k') as [->|N]; [elim H; now left|].
  f_equal. apply IH. tauto.
Qed.

Section Tabulate.
Context {V : Type}.

Lemma tabulate_keys (F : string -> V) ks : map fst (tabulate F ks) = ks.
Proof. unfold tabulate. rewrite map_map. simpl. apply map_id. Qed.

Lemma tabulate_ext (F G : string -> V) ks :
  (forall k, In k ks -> F k = G k) -> tabulate F ks = tabulate G ks.
Proof.
  intros H. unfold tabulate. apply map_ext_in. intros k Hk. now rewrite H.
Qed.

Lemma adjust_tabulate (F G : string -> V) ks k (f : V -> V) :
  NoDup ks -> G k = f (F k) -> (forall k', k' <> k -> G k' = F k') ->
  Js.adjust (tabulate F ks) k f = tabulate G ks.
Proof.
  intros ND Hk Hother. induction ND as [|k0 ks Hnot ND IH]; simpl; [reflexivity|].
  destruct (String.eqb_spec k k0) as [<-|N].
  - rewrite Hk. f_equal. apply tabulate_ext.
    intros k' Hk'. symmetry. apply Hother. intros ->. contradiction.
  - rewrite (Hother k0) by congruence. f_equal. exact IH.
Qed.

Lemma create_tabulate (F : string -> V) ks k (v : V) :
  ~ In k ks ->
  Js.create k v (tabulate F ks) =
  tabulate (fun k' => if k' =? k then v else F k') (insertKey k ks).
Proof.
  intros Hnot. induction ks as [|k0 ks IH]; simpl.
  - now rewrite String.eqb_refl.
  - assert (k0 <> k) as N by (intros ->; apply Hnot; now left).
    assert (tabulate F ks =
            tabulate (fun k' => if k' =? k then v else F k') ks) as E.
    { apply tabulate_ext. intros k' Hk'.
      destruct (String.eqb_spec k' k) as [->|_]; [|reflexivity].
      elim Hnot. now right. }
    destruct (Js.before k k0); simpl.
    + rewrite String.eqb_refl.
      destruct (String.eqb_spec k0 k) as [?|_]; [contradiction|].
      now rewrite E.
    + destruct (String.eqb_spec k0 k) as [?|_]; [contradiction|].
      f_equal. apply IH. intros I. apply Hnot. now right.
Qed.

End Tabulate.

Lemma insertKey_In k ks k' : In k' (insertKey k ks) <-> k' = k \/ In k' ks.
Proof.
  induction ks as [|k0 ks IH]; simpl.
  - intuition congruence.
  - destruct (Js.before k k0); simpl; rewrite ?IH; intuition congruence.
Qed.

Lemma insertKey_NoDup k ks : ~ In k ks -> NoDup ks -> NoDup (insertKey k ks).
Proof.
  intros Hnot ND. induction ND as [|k0 ks H0 ND IH]; simpl.
  - constructor; [intros []|constructor].
  - destruct (Js.before k k0).
    + constructor; [assumption|now constructor].
    + constructor.
      * rewrite insertKey_In. intros [->|I]; [apply Hnot; now left|contradiction].
      * apply IH. intros I. apply Hnot. now right.
Qed.

Lemma addKey_NoDup ks k : NoDup ks -> NoDup (addKey ks k).
Proof.
  intros ND. unfold addKey.
  destruct (existsb (String.eqb k) ks) eqn:E; simpl; [assumption|].
  destruct (Js.inherited k); [assumption|].
  apply insertKey_NoDup; [|assumption].
  rewrite <- existsb_eqb_In. congruence.
Qed.

Lemma addKey_In ks k k' :
  In k' (addKey ks k) <-> In k' ks \/ (k' = k /\ Js.inherited k = false).
Proof.
  unfold addKey. destruct (existsb (String.eqb k) ks) eqn:E; simpl.
  - apply existsb_eqb_In in E. split; [tauto|]. intros [H|[-> _]]; assumption.
  - destruct (Js.inherited k).
    + split; [tauto|]. intros [H|[_ H]]; [assumption|discriminate].
    + rewrite insertKey_In. tauto.
Qed.

Lemma keysOf_snoc data item :
  keysOf (data ++ [item]) = addKey (keysOf data) (Item.Menu item).
Proof. unfold keysOf. now rewrite map_app, fold_left_app. Qed.

Lemma keysOf_NoDup data : NoDup (keysOf data).
Proof.
  induction data as [|item data IH] using rev_ind.
  - constructor.
  - rewrite keysOf_snoc. now apply addKey_NoDup.
Qed.

Lemma ownMenus_snoc data item :
  ownMenus (data ++ [item]) =
  ownMenus data ++ (if Js.inherited (Item.Menu item) then [] else [Item.Menu item]).
Proof.
  unfold ownMenus. rewrite map_app, filter_app. simpl.
  now destruct (Js.inherited (Item.Menu item)).
Qed.

Lemma keysOf_In data k : In k (keysOf data) <-> In k (ownMenus data).
Proof.
  induction data as [|item data IH] using rev_ind.
  - simpl. tauto.
  - rewrite keysOf_snoc, ownMenus_snoc, addKey_In, in_app_iff, IH.
    destruct (Js.inherited (Item.Menu item)); simpl; intuition congruence.
Qed.

Lemma ownMenus_In data k :
  In k (ownMenus data) <->
  (exists item, In item data /\ Item.Menu item = k) /\ Js.inherited k = false.
Proof.
  unfold ownMenus. rewrite filter_In, in_map_iff, negb_true_iff.
  split; intros [(item & H1 & H2) H3]; (split; [exists item|]); auto.
Qed.

Lemma totalOf_snoc f data item :
  totalOf f (data ++ [item]) = (totalOf f data + Js.or0 (f item))%Qc.
Proof. unfold totalOf, Js.sum. now rewrite fold_left_app. Qed.

Lemma recordsOf_snoc k data item :
  recordsOf k (data ++ [item]) =
  recordsOf k data ++ (if Item.Menu item =? k then [item] else []).
Proof. unfold recordsOf. now rewrite filter_app. Qed.

Lemma statFor_other b data item k :
  k <> Item.Menu item -> statFor b (data ++ [item]) k = statFor b data k.
Proof.
  intros N. unfold statFor, groupTotal. rewrite recordsOf_snoc.
  destruct (String.eqb_spec (Item.Menu item) k) as [E|_]; [congruence|].
  now rewrite app_nil_r.
Qed.

Lemma statFor_same b data item :
  statFor b (data ++ [item]) (Item.Menu item) =
  (let s := statFor b data (Item.Menu item) in
   Stat.mk (Stat.Menu s)
     (Stat.Total s + Js.or0 (Item.Total item))
     (Stat.Qty s + Js.or0 (Item.Qty item))
     (Stat.Margin s + Js.or0 (Item.Margin item))
     (Stat.branch s))%Qc.
Proof.
  unfold statFor, groupTotal. rewrite recordsOf_snoc, String.eqb_refl.
  now rewrite !totalOf_snoc.
Qed.

Lemma recordsOf_absent k data :
  ~ (exists item, In item data /\ Item.Menu item = k) -> recordsOf k data = [].
Proof.
  intros H. unfold recordsOf. induction data as [|item data IH]; simpl; [reflexivity|].
  destruct (String.eqb_spec (Item.Menu item) k) as [E|_].
  - elim H. exists item. split; [now left|assumption].
  - apply IH. intros (i & Hi & E). apply H. exists i. split; [now right|assumption].
Qed.

(** The aggregation in closed form: one property per product name that is
    not a member of Object.prototype, holding the totals of its records. *)
Lemma productStatsOf_tabulate selectedBranch data :
  productStatsOf selectedBranch data =
  tabulate (statFor selectedBranch data) (keysOf data).
Proof.
  induction data as [|item data IH] using rev_ind; [reflexivity|].
  unfold productStatsOf in *. rewrite fold_left_app. cbn [fold_left].
  rewrite IH, keysOf_snoc. clear IH.
  set (k := Item.Menu item). set (ks := keysOf data).
  assert (NoDup ks) as ND by apply keysOf_NoDup.
  unfold addRecord, Js.get, addKey. fold k.
  destruct (Js.own (tabulate (statFor selectedBranch data) ks) k) as [s|] eqn:Own.
  - apply own_Some_In in Own. rewrite tabulate_keys in Own.
    rewrite (proj2 (existsb_eqb_In k ks) Own). cbn [orb].
    apply adjust_tabulate; [assumption| |].
    + apply statFor_same.
    + intros k' N. now apply statFor_other.
  - apply own_None_iff in Own. rewrite tabulate_keys in Own.
    assert (existsb (String.eqb k) ks = false) as ->.
    { destruct (existsb (String.eqb k) ks) eqn:E; [|reflexivity].
      apply existsb_eqb_In in E. contradiction. }
    cbn [orb]. destruct (Js.inherited k) eqn:Inh.
    + rewrite adjust_absent by now rewrite tabulate_keys.
      apply tabulate_ext. intros k' Hk'. symmetry. apply statFor_other.
      intros ->. contradiction.
    + unfold Js.put.
      rewrite (proj2 (own_None_iff _ k)) by now rewrite tabulate_keys.
      rewrite create_tabulate by assumption.
      apply adjust_tabulate.
      * now apply insertKey_NoDup.
      * rewrite String.eqb_refl. unfold k. rewrite statFor_same. cbn zeta.
        assert (recordsOf (Item.Menu item) data = []) as R.
        { apply recordsOf_absent. intros H. apply Own. apply keysOf_In.
          apply ownMenus_In. now split. }
        unfold statFor, groupTotal. now rewrite R.
      * intros k' N. destruct (String.eqb_spec k' k) as [?|_]; [contradiction|].
        now apply statFor_other.
Qed.

Lemma productsOf_closed selectedBranch data :
  productsOf selectedBranch data =
  map (fun k => withPercentages (statFor selectedBranch data k)) (keysOf data).
Proof.
  unfold productsOf, Js.values, tabulate.
  rewrite productStatsOf_tabulate. unfold tabulate. now rewrite !map_map.
Qed.

(** ** The sort key *)

(** C1, as the code has it: the key "price" is none of revenue, quantity and
    margin, the specification's mapping rejects it, and the table is shown
    all the same, ranked by revenue as for the key "revenue". *)
Lemma unknown_sort_key_ranks_by_revenue :
  ~ In "price" ["revenue"; "quantity"; "margin"] /\
  specSortField "price" = None /\
  sortFieldOf "price" = F_Total /\
  shownNames (updateTopPerformersTable (selects "A" "all" "price") twoProducts initialPage)
    = Some ["Ayam Bakar"; "Nasi Goreng"] /\
  shownNames (updateTopPerformersTable (selects "A" "all" "revenue") twoProducts initialPage)
    = Some ["Ayam Bakar"; "Nasi Goreng"] /\
  shownNames (updateTopPerformersTable (selects "A" "all" "quantity") twoProducts initialPage)
    = Some ["Nasi Goreng"; "Ayam Bakar"].
Proof.
  split; [|repeat split; vm_compute; reflexivity].
  simpl. intros [H|[H|[H|[]]]]; discriminate.
Qed.

Lemma sortFieldOf_default sortBy :
  sortBy <> "quantity" -> sortBy <> "margin" -> sortFieldOf sortBy = F_Total.
Proof.
  intros Hq Hm. unfold sortFieldOf.
  destruct (String.eqb_spec sortBy "quantity") as [?|_]; [contradiction|].
  destruct (String.eqb_spec sortBy "margin") as [?|_]; [contradiction|].
  reflexivity.
Qed.

(** C1, amended: every sort key other than quantity and margin, revenue or
    not, selects the summed total: the table of such a key is the table of
    the key revenue, and no key makes the table an error. *)
Theorem sort_key_defaults_to_revenue :
  forall (dom : Dom) (allData : list Item.t) (page : Page),
    sortBy dom <> "quantity" -> sortBy dom <> "margin" ->
    sortFieldOf (sortBy dom) = F_Total /\
    table (updateTopPerformersTable dom allData page) =
    table (updateTopPerformersTable (withSortBy dom "revenue") allData page).
Proof.
  intros dom allData page Hq Hm.
  split; [now apply sortFieldOf_default|].
  unfold updateTopPerformersTable. cbn [withSortBy branchSelect topCount
    top_performers_table summary_content sortBy].
  destruct (negb (top_performers_table dom) || (List.length allData =? 0)%nat);
    [reflexivity|].
  destruct (branchSelect dom =? EmptyString); [reflexivity|].
  destruct (List.length (branchDataOf allData (branchSelect dom)) =? 0)%nat;
    [reflexivity|].
  cbn [table]. unfold topProductsOf.
  now rewrite (sortFieldOf_default (sortBy dom) Hq Hm).
Qed.

Lemma sort_key_defaults_to_revenue_witness :
  sortFieldOf "price" = F_Total /\
  table (updateTopPerformersTable (selects "A" "all" "price") twoProducts initialPage) =
  table (updateTopPerformersTable (withSortBy (selects "A" "all" "price") "revenue")
           twoProducts initialPage).
Proof.
  apply (sort_key_defaults_to_revenue (selects "A" "all" "price") twoProducts initialPage);
    simpl; discriminate.
Defined.

(** ** Derived ratios *)

Lemma productsOf_In selectedBranch data p :
  In p (productsOf selectedBranch data) ->
  exists k, In k (keysOf data) /\ p = withPercentages (statFor selectedBranch data k).
Proof.
  rewrite productsOf_closed, in_map_iff. intros (k & E & I). now exists k.
Qed.

(** C3, as the code has it: a product whose records sum to a revenue of
    -100 and a margin of -20 has a revenue sum other than 0 and yet a margin
    percentage of 0, where margin / revenue * 100 is 20; the same holds of
    its average price with a quantity sum of -1. *)
Lemma negative_sums_give_zero_ratios :
  map (fun p => (Product.Total p, Product.Qty p, Product.Margin p,
                 Product.Margin_Percentage p, Product.Avg_Price p))
      (productsOf "A" [refund])
    = [(num (-100), num (-1), num (-20), 0%Qc, 0%Qc)] /\
  num (-100) <> 0%Qc /\ num (-1) <> 0%Qc /\
  (num (-20) / num (-100) * num 100)%Qc = num 20 /\ num 20 <> 0%Qc /\
  (num (-100) / num (-1))%Qc = num 100 /\ num 100 <> 0%Qc.
Proof.
  repeat split; try discriminate; try reflexivity;
    apply Qc_is_canon; reflexivity.
Qed.

(** C3, amended: the sums of an aggregate are the sums of its product's
    records (missing fields as 0); its margin percentage is margin sum /
    revenue sum * 100 when the revenue sum is positive and 0 when it is zero
    or negative; its average price is revenue sum / quantity sum when the
    quantity sum is positive and 0 when it is zero or negative. *)
Theorem derived_ratios_guarded_by_sign :
  forall (selectedBranch : string) (branchData : list Item.t) (p : Product.t),
    In p (productsOf selectedBranch branchData) ->
    let revenue_sum := groupTotal Item.Total (Product.Menu p) branchData in
    let quantity_sum := groupTotal Item.Qty (Product.Menu p) branchData in
    let margin_sum := groupTotal Item.Margin (Product.Menu p) branchData in
    Product.Total p = revenue_sum /\
    Product.Qty p = quantity_sum /\
    Product.Margin p = margin_sum /\
    ((0 < revenue_sum)%Qc ->
     Product.Margin_Percentage p = (margin_sum / revenue_sum * num 100)%Qc) /\
    ((revenue_sum <= 0)%Qc -> Product.Margin_Percentage p = 0%Qc) /\
    ((0 < quantity_sum)%Qc ->
     Product.Avg_Price p = (revenue_sum / quantity_sum)%Qc) /\
    ((quantity_sum <= 0)%Qc -> Product.Avg_Price p = 0%Qc).
Proof.
  intros selectedBranch branchData p Hp.
  apply productsOf_In in Hp. destruct Hp as (k & _ & ->).
  cbn zeta. unfold withPercentages. cbn [Product.Menu Product.Total Product.Qty
    Product.Margin Product.Margin_Percentage Product.Avg_Price statFor
    Stat.Menu Stat.Total Stat.Qty Stat.Margin Stat.branch].
  repeat split; intros H.
  - now rewrite (proj2 (gtb_true_iff _ _) H).
  - now rewrite (proj2 (gtb_false_iff _ _) H).
  - now rewrite (proj2 (gtb_true_iff _ _) H).
  - now rewrite (proj2 (gtb_false_iff _ _) H).
Qed.

Lemma derived_ratios_guarded_by_sign_witness :
  In (aggregateOf twoProducts "Ayam Bakar") (productsOf "A" twoProducts) /\
  Product.Total (aggregateOf twoProducts "Ayam Bakar") =
    groupTotal Item.Total "Ayam Bakar" twoProducts /\
  ((0 < groupTotal Item.Total "Ayam Bakar" twoProducts)%Qc ->
   Product.Margin_Percentage (aggregateOf twoProducts "Ayam Bakar") =
   (groupTotal Item.Margin "Ayam Bakar" twoProducts
    / groupTotal Item.Total "Ayam Bakar" twoProducts * num 100)%Qc).
Proof.
  assert (In (aggregateOf twoProducts "Ayam Bakar") (productsOf "A" twoProducts)) as I.
  { rewrite productsOf_closed. apply in_map_iff. exists "Ayam Bakar".
    split; [reflexivity|]. vm_compute. tauto. }
  split; [exact I|].
  destruct (derived_ratios_guarded_by_sign "A" twoProducts
              (aggregateOf twoProducts "Ayam Bakar") I) as (H1 & _ & _ & H4 & _).
  split; [exact H1|exact H4].
Defined.

(** ** Sorting *)

Section Sorting.
Context {A : Type} (key : A -> Qc).

Let cmp (a b : A) : Qc := (key b - key a)%Qc.

Lemma cmp_positive a b : Js.gtb (cmp a b) 0 = true <-> (key a < key b)%Qc.
Proof.
  rewrite gtb_true_iff. unfold cmp, Qcminus. symmetry. apply Qclt_minus_iff.
Qed.

Lemma insert_perm x l : Permutation (Js.insert cmp x l) (x :: l).
Proof.
  induction l as [|y r IH]; simpl; [reflexivity|].
  destruct (Js.gtb (cmp x y) 0); [|reflexivity].
  rewrite IH. apply perm_swap.
Qed.

Lemma sort_perm l : Permutation (Js.sort cmp l) l.
Proof.
  induction l as [|x r IH]; simpl; [reflexivity|].
  rewrite insert_perm. now constructor.
Qed.

Lemma insert_descending x l :
  Descending key l -> Descending key (Js.insert cmp x l).
Proof.
  unfold Descending. induction 1 as [|y r Hr IH Hy]; simpl.
  - repeat constructor.
  - destruct (Js.gtb (cmp x y) 0) eqn:E.
    + apply cmp_positive in E. constructor; [assumption|].
      apply Forall_forall. intros z Hz.
      apply (Permutation_in _ (insert_perm x r)) in Hz. destruct Hz as [<-|Hz].
      * now apply Qclt_le_weak.
      * rewrite Forall_forall in Hy. now apply Hy.
    + assert (key y <= key x)%Qc as Le.
      { apply Qcnot_lt_le. intros L. apply cmp_positive in L. congruence. }
      constructor; [now constructor|].
      constructor; [assumption|].
      apply Forall_forall. intros z Hz. rewrite Forall_forall in Hy.
      apply Qcle_trans with (key y); [now apply Hy|assumption].
Qed.

Lemma sort_descending l : Descending key (Js.sort cmp l).
Proof.
  induction l as [|x r IH]; simpl; [constructor|]. now apply insert_descending.
Qed.

Lemma insert_withKey v x l :
  withKey key v (Js.insert cmp x l) = withKey key v (x :: l).
Proof.
  unfold withKey. induction l as [|y r IH]; [reflexivity|].
  cbn [Js.insert]. destruct (Js.gtb (cmp x y) 0) eqn:E; [|reflexivity].
  apply cmp_positive in E. cbn [filter] in *. rewrite IH.
  destruct (Qc_eq_dec (key x) v) as [Ex|_]; [|reflexivity].
  destruct (Qc_eq_dec (key y) v) as [Ey|_]; [|reflexivity].
  exfalso. rewrite <- Ey in Ex. now apply Qclt_not_eq in E.
Qed.

(** The sort keeps the order of the elements of equal key. *)
Lemma sort_withKey v l : withKey key v (Js.sort cmp l) = withKey key v l.
Proof.
  induction l as [|x r IH]; [reflexivity|].
  cbn [Js.sort]. rewrite insert_withKey. unfold withKey in *. cbn [filter].
  now rewrite IH.
Qed.

End Sorting.

(** ** Order of two elements *)

Section Precedes.
Context {A : Type}.

Lemma filter_split (P : A -> bool) l : forall m1 a m2,
  filter P l = m1 ++ a :: m2 ->
  exists l1 l2, l = l1 ++ a :: l2 /\ filter P l1 = m1 /\ filter P l2 = m2.
Proof.
  induction l as [|x r IH]; intros m1 a m2 H; simpl in H.
  - now destruct m1.
  - destruct (P x) eqn:Px.
    + destruct m1 as [|y m1]; simpl in H; injection H as <- H.
      * exists [], r. simpl. now rewrite H.
      * destruct (IH _ _ _ H) as (l1 & l2 & -> & <- & <-).
        exists (x :: l1), l2. simpl. now rewrite Px.
    + destruct (IH _ _ _ H) as (l1 & l2 & -> & <- & <-).
      exists (x :: l1), l2. simpl. now rewrite Px.
Qed.

Lemma precedes_filter_elim (P : A -> bool) a b l :
  precedes a b (filter P l) -> precedes a b l.
Proof.
  intros (m1 & m2 & m3 & H).
  destruct (filter_split P l _ _ _ H) as (l1 & l' & -> & _ & H').
  destruct (filter_split P l' _ _ _ H') as (l2 & l3 & -> & _ & _).
  now exists l1, l2, l3.
Qed.

Lemma precedes_filter_intro (P : A -> bool) a b l :
  P a = true -> P b = true -> precedes a b l -> precedes a b (filter P l).
Proof.
  intros Pa Pb (l1 & l2 & l3 & ->).
  exists (filter P l1), (filter P l2), (filter P l3).
  rewrite filter_app. simpl. rewrite Pa, filter_app. simpl.
  now rewrite Pb.
Qed.

Lemma precedes_firstn n a b (l : list A) :
  precedes a b (firstn n l) -> precedes a b l.
Proof.
  intros (l1 & l2 & l3 & H). exists l1, l2, (l3 ++ skipn n l).
  rewrite <- (firstn_skipn n l) at 1. rewrite H.
  now rewrite <- !app_assoc, <- !app_comm_cons, <- app_assoc.
Qed.

Lemma precedes_total a b (l : list A) :
  In a l -> In b l -> a <> b -> precedes a b l \/ precedes b a l.
Proof.
  intros Ha Hb N. apply in_split in Ha. destruct Ha as (l1 & l2 & ->).
  apply in_app_or in Hb. destruct Hb as [Hb|[Hb|Hb]].
  - apply in_split in Hb. destruct Hb as (m1 & m2 & ->). right.
    exists m1, m2, l2. now rewrite <- app_assoc.
  - congruence.
  - apply in_split in Hb. destruct Hb as (m1 & m2 & ->). left.
    now exists l1, m1, m2.
Qed.

Lemma precedes_In a b (l : list A) : precedes a b l -> In a l /\ In b l.
Proof.
  intros (l1 & l2 & l3 & ->). split.
  - apply in_or_app. right. now left.
  - apply in_or_app. right. right. apply in_or_app. right. now left.
Qed.

Lemma precedes_asym a b (l : list A) :
  NoDup l -> precedes a b l -> precedes b a l -> False.
Proof.
  intros ND (l1 & l2 & l3 & E). revert l ND E.
  induction l1 as [|x l1 IH]; intros l ND E (m1 & m2 & m3 & E'); subst l.
  - inversion ND as [|? ? Hnot _]; subst. apply Hnot.
    destruct m1 as [|y m1]; simpl in E'; injection E' as E1 E2.
    + subst. apply in_or_app. right. now left.
    + rewrite E2. apply in_or_app. right. right. apply in_or_app. right. now left.
  - simpl in ND. inversion ND as [|? ? Hnot ND']; subst.
    destruct m1 as [|y m1]; simpl in E'; injection E' as E1 E2.
    + subst. apply Hnot. apply in_or_app. right. right.
      apply in_or_app. right. now left.
    + apply (IH _ ND' eq_refl). now exists m1, m2, m3.
Qed.

End Precedes.

(** ** The ranker *)

Lemma map_NoDup {A B} (f : A -> B) (l : list A) :
  (forall x y, f x = f y -> x = y) -> NoDup l -> NoDup (map f l).
Proof.
  intros Inj. induction 1 as [|x l Hx ND IH]; simpl; constructor; [|assumption].
  rewrite in_map_iff. intros (y & E & I). apply Inj in E. now subst.
Qed.

Lemma productsOf_NoDup selectedBranch data : NoDup (productsOf selectedBranch data).
Proof.
  rewrite productsOf_closed. apply map_NoDup.
  - intros k k' E. apply (f_equal Product.Menu) in E. exact E.
  - apply keysOf_NoDup.
Qed.

Lemma productsOf_Menu_NoDup selectedBranch data :
  NoDup (map Product.Menu (productsOf selectedBranch data)).
Proof.
  rewrite productsOf_closed, map_map. cbn. rewrite map_id. apply keysOf_NoDup.
Qed.

Lemma slice0_of_nat {A} (l : list A) (k : nat) :
  Js.slice0 l (Some (Z.of_nat k)) = firstn k l.
Proof.
  unfold Js.slice0.
  destruct (Z.ltb_spec (Z.of_nat k) 0) as [?|_]; [lia|].
  destruct (Nat.le_gt_cases k (List.length l)) as [Le|Gt].
  - f_equal. lia.
  - rewrite (firstn_all2 l (n := k)) by lia.
    apply firstn_all2. lia.
Qed.

Lemma slice0_firstn {A} (l : list A) (end_ : option Z) :
  exists n, Js.slice0 l end_ = firstn n l.
Proof. unfold Js.slice0. eexists. reflexivity. Qed.


Lemma sortFieldOf_keys :
  sortFieldOf "revenue" = F_Total /\
  sortFieldOf "quantity" = F_Qty /\
  sortFieldOf "margin" = F_Margin_Percentage.
Proof. repeat split. Qed.

(** *** parseInt on decimal numerals *)

Ltac eval_digit :=
  match goal with
  | |- context [Js.digit_in 10 ?c] =>
      let v := eval vm_compute in (Js.digit_in 10 c) in
      change (Js.digit_in 10 c) with v; cbv iota
  end.

Lemma leading_digits_uint (d : Decimal.uint) : forall acc : N,
  Js.leading_digits 10 (DecimalString.NilEmpty.string_of_uint d) (Some acc) =
  Some (N.of_nat (Nat.of_uint_acc d (N.to_nat acc))).
Proof.
  induction d; intros acc;
    cbn [DecimalString.NilEmpty.string_of_uint Js.leading_digits Nat.of_uint_acc];
    [now rewrite N2Nat.id|..];
    eval_digit; rewrite IHd; do 3 f_equal;
    rewrite Nat.tail_mul_spec; lia.
Qed.

Lemma unorm_not_Nil (d : Decimal.uint) : Decimal.unorm d <> Decimal.Nil.
Proof. induction d; simpl; try discriminate; assumption. Qed.

Lemma to_uint_not_Nil (k : nat) : Nat.to_uint k <> Decimal.Nil.
Proof.
  rewrite <- (DecimalNat.Unsigned.of_to k) at 1.
  rewrite DecimalNat.Unsigned.to_of. apply unorm_not_Nil.
Qed.

Lemma parseInt_uint (d : Decimal.uint) :
  d <> Decimal.Nil ->
  Js.parseInt (DecimalString.NilEmpty.string_of_uint d) =
  Some (Z.of_nat (Nat.of_uint d)).
Proof.
  intros H. destruct d as [|d|d|d|d|d|d|d|d|d|d]; [now elim H|..].
  2-10: unfold Js.parseInt;
    cbn [DecimalString.NilEmpty.string_of_uint Js.trim_start];
    change (Js.is_space _) with false; cbv iota;
    cbn [Js.leading_digits]; eval_digit;
    rewrite leading_digits_uint, nat_N_Z; reflexivity.
  unfold Js.parseInt; cbn [DecimalString.NilEmpty.string_of_uint Js.trim_start].
  change (Js.is_space _) with false; cbv iota.
  destruct d; cbn [DecimalString.NilEmpty.string_of_uint]; cbv iota;
    cbn [Js.leading_digits]; repeat eval_digit;
    try (rewrite leading_digits_uint, nat_N_Z); reflexivity.
Qed.

(** parseInt reads a decimal numeral as its number. *)
Lemma parseInt_decimal (k : nat) : Js.parseInt (decimal k) = Some (Z.of_nat k).
Proof.
  unfold decimal. rewrite parseInt_uint by apply to_uint_not_Nil.
  now rewrite DecimalNat.Unsigned.of_to.
Qed.




Lemma precedes_map {A B} (g : A -> B) (a b : A) (l : list A) :
  precedes a b l -> precedes (g a) (g b) (map g l).
Proof.
  intros (l1 & l2 & l3 & ->). exists (map g l1), (map g l2), (map g l3).
  now rewrite map_app, map_cons, map_app, map_cons.
Qed.

(** The order of two displayed entries of equal sort value is their order
    in the sequence that was sorted. *)
Lemma ties_keep_their_order :
  forall (selectedBranch : string) (branchData : list Item.t)
         (sortBy count : string) (a b : Product.t),
    let products := productsOf selectedBranch branchData in
    let ranked := topProductsOf sortBy count products in
    let key := field (sortFieldOf sortBy) in
    In a ranked -> In b ranked -> key a = key b ->
    (precedes a b ranked <-> precedes a b products).
Proof.
  intros selectedBranch branchData sortBy count a b products ranked key Ha Hb E.
  assert (forall x y, key x = key y -> precedes x y ranked -> precedes x y products)
    as Forward.
  { intros x y Exy H. subst ranked. unfold topProductsOf in H.
    destruct (slice0_firstn (Js.sort (descending (sortFieldOf sortBy)) products)
                (if count =? "all" then Some (Z.of_nat (List.length products))
                 else Js.parseInt count)) as (n & En).
    rewrite En in H.
    apply precedes_firstn in H.
    apply (precedes_filter_intro
             (fun p => if Qc_eq_dec (key p) (key x) then true else false)) in H.
    - change (precedes x y (withKey key (key x)
                (Js.sort (fun a b => key b - key a)%Qc products))) in H.
      rewrite sort_withKey in H. now apply precedes_filter_elim in H.
    - now destruct (Qc_eq_dec (key x) (key x)).
    - destruct (Qc_eq_dec (key y) (key x)); congruence. }
  split; [now apply Forward|].
  intros H.
  assert (NoDup products) as ND by apply productsOf_NoDup.
  assert (a <> b) as N.
  { intros ->. apply (precedes_asym b b products ND H H). }
  destruct (precedes_total a b ranked Ha Hb N) as [?|R]; [assumption|].
  exfalso. apply (precedes_asym a b products ND H).
  apply Forward; [now symmetry|assumption].
Qed.



(** ** The order of the aggregates *)

Lemma before_of_name k k' : isIndex k = false -> Js.before k k' = false.
Proof. unfold isIndex, Js.before. now destruct (Js.array_index k). Qed.

Lemma before_name k k' :
  isIndex k = true -> isIndex k' = false -> Js.before k k' = true.
Proof.
  unfold isIndex, Js.before.
  destruct (Js.array_index k); [|discriminate].
  now destruct (Js.array_index k').
Qed.

Lemma before_index k k' :
  isIndex k = true -> isIndex k' = true ->
  Js.before k k' = (indexOf k <? indexOf k')%N.
Proof.
  unfold isIndex, indexOf, Js.before.
  destruct (Js.array_index k); [|discriminate].
  now destruct (Js.array_index k').
Qed.

Lemma insertKey_name k ks : isIndex k = false -> insertKey k ks = ks ++ [k].
Proof.
  intros H. induction ks as [|k' r IH]; simpl; [reflexivity|].
  now rewrite (before_of_name k k' H), IH.
Qed.

Lemma insertKey_index_app k idx names :
  isIndex k = true -> Forall (fun k' => isIndex k' = false) names ->
  insertKey k (idx ++ names) = insertKey k idx ++ names.
Proof.
  intros H F. induction idx as [|k' r IH]; simpl.
  - destruct F as [|k' r Hk' _]; [reflexivity|]. simpl.
    now rewrite (before_name k k' H Hk').
  - destruct (Js.before k k'); [reflexivity|]. now rewrite IH.
Qed.

Lemma insertKey_ascending k idx :
  isIndex k = true -> Forall (fun k' => isIndex k' = true) idx ->
  Ascending idx -> Ascending (insertKey k idx).
Proof.
  unfold Ascending. intros H F S. induction S as [|k' r S IH Hk']; simpl.
  - repeat constructor.
  - inversion F as [|? ? Fk' Fr]; subst.
    rewrite (before_index k k' H Fk').
    destruct (N.ltb_spec (indexOf k) (indexOf k')) as [Lt|Ge].
    + constructor; [now constructor|]. constructor; [lia|].
      rewrite Forall_forall in *. intros z Hz. specialize (Hk' z Hz). lia.
    + constructor; [now apply IH|].
      rewrite Forall_forall in *. intros z Hz. apply insertKey_In in Hz.
      destruct Hz as [->|Hz]; [assumption|now apply Hk'].
Qed.

Lemma first_seen_In l k : In k (first_seen l) <-> In k l.
Proof.
  induction l as [|x r IH]; simpl; [tauto|].
  rewrite filter_In, IH, negb_true_iff, String.eqb_neq.
  destruct (string_dec x k); intuition congruence.
Qed.

Lemma first_seen_snoc l k :
  first_seen (l ++ [k]) =
  if existsb (String.eqb k) l then first_seen l else first_seen l ++ [k].
Proof.
  induction l as [|x r IH]; simpl; [reflexivity|].
  rewrite IH. destruct (String.eqb_spec k x) as [->|N]; simpl.
  - destruct (existsb (String.eqb x) r); [reflexivity|].
    rewrite filter_app. simpl. rewrite String.eqb_refl. simpl.
    now rewrite app_nil_r.
  - destruct (existsb (String.eqb k) r); [reflexivity|].
    rewrite filter_app. simpl.
    destruct (String.eqb_spec k x) as [?|_]; [contradiction|]. reflexivity.
Qed.

(** The enumeration order of the aggregates: the names that are array
    indices in ascending order, then the other names as first seen. *)
Lemma keysOf_order data :
  exists idx,
    keysOf data =
      idx ++ first_seen (filter (fun k => negb (isIndex k)) (ownMenus data)) /\
    Forall (fun k => isIndex k = true) idx /\
    Ascending idx.
Proof.
  induction data as [|item data IH] using rev_ind.
  - exists []. repeat split; constructor.
  - destruct IH as (idx & E & F & S).
    rewrite keysOf_snoc, ownMenus_snoc, filter_app.
    set (k := Item.Menu item).
    set (seen := filter (fun k => negb (isIndex k)) (ownMenus data)) in *.
    assert (Forall (fun k' => isIndex k' = false) (first_seen seen)) as Fn.
    { apply Forall_forall. intros k' Hk'.
      apply (proj1 (first_seen_In _ _)) in Hk'. unfold seen in Hk'.
      apply filter_In in Hk'. now apply negb_true_iff. }
    unfold addKey. rewrite E.
    destruct (existsb (String.eqb k) (idx ++ first_seen seen)) eqn:Mem; simpl.
    + exists idx. split; [|now split].
      f_equal. apply existsb_eqb_In in Mem.
      destruct (Js.inherited k); simpl; [now rewrite app_nil_r|].
      destruct (isIndex k) eqn:Ik; simpl; [now rewrite app_nil_r|].
      rewrite first_seen_snoc.
      assert (In k seen) as Hs.
      { apply in_app_or in Mem. destruct Mem as [Hi|Hn].
        - rewrite Forall_forall in F. specialize (F k Hi). congruence.
        - now apply (proj1 (first_seen_In _ _)). }
      now rewrite (proj2 (existsb_eqb_In k seen) Hs).
    + destruct (Js.inherited k); simpl.
      * exists idx. rewrite app_nil_r. now repeat split.
      * assert (~ In k (idx ++ first_seen seen)) as Hnot.
        { rewrite <- existsb_eqb_In. congruence. }
        destruct (isIndex k) eqn:Ik; simpl.
        -- exists (insertKey k idx). rewrite app_nil_r.
           split; [now apply insertKey_index_app|]. split.
           ++ apply Forall_forall. intros z Hz. apply insertKey_In in Hz.
              rewrite Forall_forall in F. destruct Hz as [->|Hz]; auto.
           ++ now apply insertKey_ascending.
        -- exists idx. split; [|now split].
           rewrite insertKey_name by assumption. rewrite <- app_assoc. f_equal.
           rewrite first_seen_snoc.
           assert (existsb (String.eqb k) seen = false) as ->; [|reflexivity].
           destruct (existsb (String.eqb k) seen) eqn:X; [|reflexivity].
           apply existsb_eqb_In in X. elim Hnot. apply in_or_app. right.
           now apply (proj2 (first_seen_In _ _)).
Qed.

Lemma ownMenus_all data :
  (forall item, In item data -> Js.inherited (Item.Menu item) = false) ->
  ownMenus data = map Item.Menu data.
Proof.
  intros H. unfold ownMenus. induction data as [|item data IH]; simpl; [reflexivity|].
  rewrite (H item (or_introl eq_refl)). simpl. f_equal.
  apply IH. intros i Hi. apply H. now right.
Qed.

Lemma filter_all {A} (P : A -> bool) (l : list A) :
  (forall x, In x l -> P x = true) -> filter P l = l.
Proof.
  intros H. induction l as [|x r IH]; simpl; [reflexivity|].
  rewrite (H x (or_introl eq_refl)). f_equal. apply IH. intros y Hy. apply H. now right.
Qed.

(** C8, as the code has it: with the product names Nasi Goreng, 7 and 3
    seen in this order, the aggregates come out as 3, 7, Nasi Goreng. *)
Lemma index_names_are_enumerated_first :
  map Item.Menu (branchDataOf numbered "A") = ["Nasi Goreng"; "7"; "3"] /\
  first_seen (map Item.Menu (branchDataOf numbered "A")) = ["Nasi Goreng"; "7"; "3"] /\
  map Product.Menu (productsOf "A" (branchDataOf numbered "A"))
    = ["3"; "7"; "Nasi Goreng"].
Proof. repeat split. Qed.

Lemma aggregates_order_lemma :
  forall (selectedBranch : string) (branchData : list Item.t),
    (forall item, In item branchData -> Js.inherited (Item.Menu item) = false) ->
    let names := map Item.Menu branchData in
    let enumerated := map Product.Menu (productsOf selectedBranch branchData) in
    (exists idx,
        enumerated = idx ++ first_seen (filter (fun k => negb (isIndex k)) names) /\
        Ascending idx /\
        NoDup idx /\
        (forall k, In k idx <-> In k names /\ isIndex k = true)) /\
    ((forall k, In k names -> isIndex k = false) -> enumerated = first_seen names).
Proof.
  intros selectedBranch branchData Hown names enumerated.
  assert (enumerated = keysOf branchData) as Ek.
  { subst enumerated. rewrite productsOf_closed, map_map. cbn. apply map_id. }
  destruct (keysOf_order branchData) as (idx & E & F & S).
  rewrite (ownMenus_all branchData Hown) in E. fold names in E.
  assert (forall k, In k idx <-> In k names /\ isIndex k = true) as Hidx.
  { intros k. split.
    - intros Hk. split; [|rewrite Forall_forall in F; now apply F].
      assert (In k (keysOf branchData)) as Hin
        by (rewrite E; apply in_or_app; now left).
      apply keysOf_In in Hin. now rewrite (ownMenus_all branchData Hown) in Hin.
    - intros [Hk Ik].
      assert (In k (keysOf branchData)) as Hin
        by (apply keysOf_In; now rewrite (ownMenus_all branchData Hown)).
      rewrite E in Hin. apply in_app_or in Hin. destruct Hin as [?|Hn]; [assumption|].
      apply (proj1 (first_seen_In _ _)) in Hn. apply filter_In in Hn.
      destruct Hn as [_ Hn]. rewrite Ik in Hn. discriminate. }
  split.
  - exists idx. rewrite Ek. split; [exact E|]. split; [exact S|]. split; [|exact Hidx].
    pose proof (keysOf_NoDup branchData) as ND. rewrite E in ND.
    now apply NoDup_app_remove_r in ND.
  - intros Hnames. rewrite Ek, E.
    destruct idx as [|k idx].
    + simpl. f_equal. apply filter_all. intros k Hk.
      now rewrite (Hnames k Hk).
    + destruct (proj1 (Hidx k) (or_introl eq_refl)) as [Hk Ik].
      rewrite (Hnames k Hk) in Ik. discriminate.
Qed.

(** C8, amended: when no product name is a member of Object.prototype, the
    aggregates are enumerated with the product names that are array indices
    first, each once and in ascending numeric order, followed by the other
    product names in the order in which each was first seen; when no name
    is an array index this is the first-seen order of all the names. *)
Theorem aggregates_enumeration_order :
  forall (selectedBranch : string) (branchData : list Item.t),
    (forall item, In item branchData -> Js.inherited (Item.Menu item) = false) ->
    let names := map Item.Menu branchData in
    let enumerated := map Product.Menu (productsOf selectedBranch branchData) in
    (exists idx,
        enumerated = idx ++ first_seen (filter (fun k => negb (isIndex k)) names) /\
        Ascending idx /\
        NoDup idx /\
        (forall k, In k idx <-> In k names /\ isIndex k = true)) /\
    ((forall k, In k names -> isIndex k = false) -> enumerated = first_seen names).
Proof. exact aggregates_order_lemma. Qed.

Lemma aggregates_enumeration_order_witness :
  (forall item, In item (branchDataOf numbered "A") ->
                Js.inherited (Item.Menu item) = false) /\
  exists idx,
    map Product.Menu (productsOf "A" (branchDataOf numbered "A")) =
      idx ++ first_seen (filter (fun k => negb (isIndex k))
                           (map Item.Menu (branchDataOf numbered "A"))) /\
    Ascending idx.
Proof.
  assert (forall item, In item (branchDataOf numbered "A") ->
                       Js.inherited (Item.Menu item) = false) as H.
  { intros item [<-|[<-|[<-|[]]]]; reflexivity. }
  split; [exact H|].
  destruct (aggregates_enumeration_order "A" (branchDataOf numbered "A") H)
    as ((idx & E & S & _) & _).
  exists idx. split; [exact E|exact S].
Defined.

(** Ties of the ranking and first-seen order: when no product name is an
    array index or a member of Object.prototype, two displayed entries of
    equal sort value stand in the order in which their names were first
    seen. *)
Lemma ties_in_first_seen_order :
  forall (selectedBranch : string) (branchData : list Item.t)
         (sortBy count : string) (a b : Product.t),
    (forall item, In item branchData -> Js.inherited (Item.Menu item) = false) ->
    (forall k, In k (map Item.Menu branchData) -> isIndex k = false) ->
    let products := productsOf selectedBranch branchData in
    let ranked := topProductsOf sortBy count products in
    let key := field (sortFieldOf sortBy) in
    In a ranked -> In b ranked -> key a = key b ->
    (precedes a b ranked <->
     precedes (Product.Menu a) (Product.Menu b)
       (first_seen (map Item.Menu branchData))).
Proof.
  intros selectedBranch branchData sortBy count a b Hown Hnames
         products ranked key Ha Hb E.
  pose proof (ties_keep_their_order selectedBranch branchData sortBy count a b
                Ha Hb E) as T.
  destruct (aggregates_order_lemma selectedBranch branchData Hown) as [_ Hfs].
  specialize (Hfs Hnames). cbn zeta in T, Hfs.
  assert (forall p, In p ranked -> In p products) as Sub.
  { intros p Hp. subst ranked. unfold topProductsOf in Hp.
    destruct (slice0_firstn (Js.sort (descending (sortFieldOf sortBy)) products)
                (if count =? "all" then Some (Z.of_nat (List.length products))
                 else Js.parseInt count)) as (n & En).
    rewrite En in Hp.
    apply (Permutation_in _ (sort_perm (field (sortFieldOf sortBy)) products)).
    rewrite <- (firstn_skipn n (Js.sort _ products)). apply in_or_app. now left. }
  assert (NoDup (map Product.Menu products)) as NDm by apply productsOf_Menu_NoDup.
  split.
  - intros H. apply T in H. rewrite <- Hfs. now apply precedes_map.
  - intros H. apply T. rewrite <- Hfs in H.
    assert (a <> b) as N.
    { intros ->. apply (precedes_asym _ _ _ NDm H H). }
    destruct (precedes_total a b products (Sub a Ha) (Sub b Hb) N) as [?|R];
      [assumption|].
    exfalso. apply (precedes_asym _ _ _ NDm H).
    now apply (precedes_map Product.Menu).
Qed.

(** ** Conservation of the sums *)

Lemma sum_from {A} (f : A -> Qc) (l : list A) : forall a,
  fold_left (fun acc p => (acc + f p)%Qc) l a = (a + sumOf (map f l))%Qc.
Proof.
  induction l as [|x r IH]; intros a; simpl.
  - unfold sumOf. simpl. ring.
  - rewrite IH. unfold sumOf. simpl. ring.
Qed.

Lemma sum_sumOf {A} (f : A -> Qc) (l : list A) : Js.sum f l = sumOf (map f l).
Proof. unfold Js.sum. rewrite sum_from. ring. Qed.

Lemma sumOf_once (ks : list string) (k0 : string) (g : string -> Qc) (c : Qc) :
  NoDup ks ->
  sumOf (map (fun k => if k0 =? k then (g k + c)%Qc else g k) ks) =
  (sumOf (map g ks) + (if existsb (String.eqb k0) ks then c else 0))%Qc.
Proof.
  induction 1 as [|k ks Hk ND IH]; unfold sumOf in *; simpl.
  - ring.
  - rewrite IH. destruct (String.eqb_spec k0 k) as [->|N]; simpl.
    + assert (existsb (String.eqb k) ks = false) as ->.
      { destruct (existsb (String.eqb k) ks) eqn:X; [|reflexivity].
        apply existsb_eqb_In in X. contradiction. }
      ring.
    + ring.
Qed.

Lemma groupTotal_snoc f k data item :
  groupTotal f k (data ++ [item]) =
  if Item.Menu item =? k then (groupTotal f k data + Js.or0 (f item))%Qc
  else groupTotal f k data.
Proof.
  unfold groupTotal. rewrite recordsOf_snoc.
  destruct (Item.Menu item =? k); [apply totalOf_snoc|now rewrite app_nil_r].
Qed.

Lemma group_totals_add_up f ks data :
  NoDup ks ->
  sumOf (map (fun k => groupTotal f k data) ks) =
  totalOf f (filter (fun item => existsb (String.eqb (Item.Menu item)) ks) data).
Proof.
  intros ND. induction data as [|item data IH] using rev_ind.
  - unfold groupTotal, totalOf, Js.sum. simpl.
    induction ks as [|k ks IHk]; [reflexivity|].
    unfold sumOf in *. simpl. inversion ND; subst. rewrite IHk by assumption. ring.
  - rewrite (map_ext _ (fun k => if Item.Menu item =? k
                                 then (groupTotal f k data + Js.or0 (f item))%Qc
                                 else groupTotal f k data))
      by (intros k; apply groupTotal_snoc).
    rewrite (sumOf_once ks (Item.Menu item) (fun k => groupTotal f k data)
               (Js.or0 (f item)) ND), IH, filter_app.
    simpl. destruct (existsb (String.eqb (Item.Menu item)) ks).
    + now rewrite totalOf_snoc.
    + rewrite app_nil_r. ring.
Qed.

Lemma kept_records data :
  filter (fun item => existsb (String.eqb (Item.Menu item)) (keysOf data)) data =
  ownRecords data.
Proof.
  unfold ownRecords. apply filter_ext_in. intros item Hitem.
  destruct (Js.inherited (Item.Menu item)) eqn:Inh; simpl.
  - destruct (existsb _ _) eqn:X; [|reflexivity].
    apply existsb_eqb_In, keysOf_In, ownMenus_In in X. destruct X; congruence.
  - apply existsb_eqb_In, keysOf_In, ownMenus_In. split; [|assumption].
    now exists item.
Qed.

(** What the aggregates add up to: the totals of the records whose product
    name is no member of Object.prototype. *)
Lemma aggregates_add_up selectedBranch data :
  Js.sum Product.Total (productsOf selectedBranch data) =
    totalOf Item.Total (ownRecords data) /\
  Js.sum Product.Qty (productsOf selectedBranch data) =
    totalOf Item.Qty (ownRecords data) /\
  Js.sum Product.Margin (productsOf selectedBranch data) =
    totalOf Item.Margin (ownRecords data).
Proof.
  rewrite !sum_sumOf, productsOf_closed, !map_map. cbn.
  rewrite <- kept_records.
  repeat split; apply group_totals_add_up, keysOf_NoDup.
Qed.

(** The sums are conserved when no product name is a member of
    Object.prototype. *)
Lemma sums_conserved_for_own_names selectedBranch data :
  (forall item, In item data -> Js.inherited (Item.Menu item) = false) ->
  Js.sum Product.Total (productsOf selectedBranch data) = totalOf Item.Total data /\
  Js.sum Product.Qty (productsOf selectedBranch data) = totalOf Item.Qty data /\
  Js.sum Product.Margin (productsOf selectedBranch data) = totalOf Item.Margin data.
Proof.
  intros H. assert (ownRecords data = data) as E.
  { apply filter_all. intros item Hi. now rewrite (H item Hi). }
  rewrite <- E at 2 4 6. apply aggregates_add_up.
Qed.

(** C6, at the failing input: the records of branch A are one sale of a
    product named constructor, revenue 100, quantity 1, margin 10;
    [productStats["constructor"]] is the inherited Object function, no
    aggregate is made, and the aggregates sum to 0 in each field, while the
    product-detail path totals the same records to a revenue of 100; the
    table is shown with no row, 0 of 0 products. *)
Theorem prototype_named_product_is_lost :
  branchDataOf shadowed "A" = shadowed /\
  option_map totalRevenueProduct
    (metrics (showProductDetails "constructor" "A" shadowed initialPage))
    = Some (num 100) /\
  productsOf "A" (branchDataOf shadowed "A") = [] /\
  Js.sum Product.Total (productsOf "A" (branchDataOf shadowed "A")) = 0%Qc /\
  totalOf Item.Total (branchDataOf shadowed "A") = num 100 /\
  Js.sum Product.Qty (productsOf "A" (branchDataOf shadowed "A")) = 0%Qc /\
  totalOf Item.Qty (branchDataOf shadowed "A") = num 1 /\
  Js.sum Product.Margin (productsOf "A" (branchDataOf shadowed "A")) = 0%Qc /\
  totalOf Item.Margin (branchDataOf shadowed "A") = num 10 /\
  table (updateTopPerformersTable (selects "A" "all" "revenue") shadowed initialPage)
    = TableShown "A" [] 0 0 /\
  summary (updateTopPerformersTable (selects "A" "all" "revenue") shadowed initialPage)
    = SummaryNoProducts.
Proof. repeat split. Qed.

(** ** The summary *)

Lemma summary_of_table dom allData page :
  top_performers_table dom = true ->
  branchSelect dom <> EmptyString ->
  branchDataOf allData (branchSelect dom) <> [] ->
  summary (updateTopPerformersTable dom allData page) =
  let products := productsOf (branchSelect dom) (branchDataOf allData (branchSelect dom)) in
  updateTopPerformersSummary (summary_content dom)
    (topProductsOf (sortBy dom) (topCount dom) products)
    (branchSelect dom) (sortBy dom) (List.length products) (summary page).
Proof.
  intros Hc Hb Hd. unfold updateTopPerformersTable. rewrite Hc. simpl.
  destruct allData as [|i0 rest]; [now elim Hd|].
  cbn [List.length Nat.eqb].
  destruct (String.eqb_spec (branchSelect dom) EmptyString) as [E|_]; [now elim Hb|].
  destruct (branchDataOf (i0 :: rest) (branchSelect dom)) eqn:E; [now elim Hd|].
  reflexivity.
Qed.



(** ** Product details, from the selection *)

Lemma showProductDetails_chart productName selectedBranch allData page :
  selectedBranch <> EmptyString ->
  let productData :=
    filter (fun item =>
              (Item.Menu item =? productName) && (Item.Branch item =? selectedBranch))
      allData in
  (productData <> [] ->
   chart (showProductDetails productName selectedBranch allData page) =
   createEnhancedProductChart productData productName selectedBranch) /\
  (productData = [] ->
   showProductDetails productName selectedBranch allData page = page).
Proof.
  intros Hb productData. unfold showProductDetails. fold productData.
  destruct (String.eqb_spec selectedBranch EmptyString) as [?|_]; [contradiction|].
  rewrite orb_false_r.
  destruct allData as [|i0 rest]; cbn [List.length Nat.eqb].
  - split; [intros H; now elim H|reflexivity].
  - destruct productData as [|p0 r]; cbn [List.length Nat.eqb].
    + split; [intros H; now elim H|reflexivity].
    + split; [reflexivity|discriminate].
Qed.

(** * Further properties of the module *)

(** ** The aggregates of a branch *)

Lemma one_aggregate_lemma :
  forall (selectedBranch : string) (branchData : list Item.t),
    let products := productsOf selectedBranch branchData in
    NoDup (map Product.Menu products) /\
    (forall k,
        In k (map Product.Menu products) <->
        (exists item, In item branchData /\ Item.Menu item = k) /\
        Js.inherited k = false) /\
    (forall p, In p products -> Product.branch p = selectedBranch).
Proof.
  intros selectedBranch branchData products. split; [|split].
  - apply productsOf_Menu_NoDup.
  - intros k. subst products. rewrite productsOf_closed, map_map. cbn.
    rewrite map_id, keysOf_In. apply ownMenus_In.
  - intros p Hp. apply productsOf_In in Hp. destruct Hp as (k & _ & ->).
    reflexivity.
Qed.

(** X1: the aggregator makes one aggregate per distinct product name, for
    exactly the names of the records that are no member of
    Object.prototype, and marks each with the selected branch. *)
Theorem one_aggregate_per_product :
  forall (selectedBranch : string) (branchData : list Item.t),
    let products := productsOf selectedBranch branchData in
    NoDup (map Product.Menu products) /\
    (forall k,
        In k (map Product.Menu products) <->
        (exists item, In item branchData /\ Item.Menu item = k) /\
        Js.inherited k = false) /\
    (forall p, In p products -> Product.branch p = selectedBranch).
Proof. exact one_aggregate_lemma. Qed.


Lemma branchDataOf_app d1 d2 b :
  branchDataOf (d1 ++ d2) b = branchDataOf d1 b ++ branchDataOf d2 b.
Proof. apply filter_app. Qed.

Lemma branchDataOf_other d b :
  (forall item, In item d -> Item.Branch item <> b) -> branchDataOf d b = [].
Proof.
  intros H. induction d as [|item d IH]; simpl; [reflexivity|].
  destruct (String.eqb_spec (Item.Branch item) b) as [E|_].
  - elim (H item (or_introl eq_refl) E).
  - apply IH. intros i Hi. apply H. now right.
Qed.

(** X3: the records of other branches, wherever they stand among the
    records, change nothing of the table of the selected branch. *)
Theorem other_branches_do_not_count :
  forall (dom : Dom) (before others after : list Item.t) (page : Page),
    (forall item, In item others -> Item.Branch item <> branchSelect dom) ->
    before ++ after <> [] ->
    table (updateTopPerformersTable dom (before ++ others ++ after) page) =
    table (updateTopPerformersTable dom (before ++ after) page) /\
    summary (updateTopPerformersTable dom (before ++ others ++ after) page) =
    summary (updateTopPerformersTable dom (before ++ after) page).
Proof.
  intros dom before others after page Hother Hne.
  assert (branchDataOf (before ++ others ++ after) (branchSelect dom) =
          branchDataOf (before ++ after) (branchSelect dom)) as E.
  { rewrite !branchDataOf_app, (branchDataOf_other others _ Hother). reflexivity. }
  assert ((List.length (before ++ others ++ after) =? 0)%nat = false) as L1.
  { apply Nat.eqb_neq. rewrite !length_app.
    destruct before, after; simpl in *; try lia. now elim Hne. }
  assert ((List.length (before ++ after) =? 0)%nat = false) as L2.
  { apply Nat.eqb_neq. destruct before, after; simpl in *; try lia. now elim Hne. }
  unfold updateTopPerformersTable. rewrite L1, L2, E.
  destruct (negb (top_performers_table dom)); cbn [orb]; [now split|].
  destruct (branchSelect dom =? EmptyString); [now split|].
  destruct (List.length (branchDataOf (before ++ after) (branchSelect dom)) =? 0)%nat;
    now split.
Qed.

Lemma other_branches_do_not_count_witness :
  (forall item, In item [sale "B" "Bakso" 1 40 4] ->
                Item.Branch item <> branchSelect (selects "A" "all" "revenue")) /\
  [sale "A" "Soto" 2 100 10] ++ [sale "A" "Sate" 3 100 40] <> [] /\
  table (updateTopPerformersTable (selects "A" "all" "revenue")
           ([sale "A" "Soto" 2 100 10] ++ [sale "B" "Bakso" 1 40 4]
            ++ [sale "A" "Sate" 3 100 40]) initialPage) =
  table (updateTopPerformersTable (selects "A" "all" "revenue")
           ([sale "A" "Soto" 2 100 10] ++ [sale "A" "Sate" 3 100 40]) initialPage).
Proof.
  assert (forall item, In item [sale "B" "Bakso" 1 40 4] ->
                       Item.Branch item <> branchSelect (selects "A" "all" "revenue"))
    as H1 by (intros item [<-|[]]; discriminate).
  assert ([sale "A" "Soto" 2 100 10] ++ [sale "A" "Sate" 3 100 40] <> [])
    as H2 by discriminate.
  split; [exact H1|]. split; [exact H2|].
  exact (proj1 (other_branches_do_not_count (selects "A" "all" "revenue") _ _ _
                  initialPage H1 H2)).
Defined.

(** ** The limit of the ranking *)

Lemma sorted_app_dominates {A} (R : A -> A -> Prop) (l1 l2 : list A) :
  StronglySorted R (l1 ++ l2) -> forall a b, In a l1 -> In b l2 -> R a b.
Proof.
  induction l1 as [|x l1 IH]; simpl; intros S a b Ha Hb; [contradiction|].
  inversion S as [|? ? S' F]; subst. destruct Ha as [<-|Ha].
  - rewrite Forall_forall in F. apply F. apply in_or_app. now right.
  - now apply IH.
Qed.

Lemma topProductsOf_prefix sortBy count products :
  exists rest,
    topProductsOf sortBy count products ++ rest =
    Js.sort (descending (sortFieldOf sortBy)) products.
Proof.
  unfold topProductsOf.
  destruct (slice0_firstn (Js.sort (descending (sortFieldOf sortBy)) products)
              (if count =? "all" then Some (Z.of_nat (List.length products))
               else Js.parseInt count)) as (n & ->).
  exists (skipn n (Js.sort (descending (sortFieldOf sortBy)) products)).
  apply firstn_skipn.
Qed.

(** X4: whatever the count select holds, the displayed entries are
    aggregates of the branch, none of them twice, and every aggregate that
    is not displayed has a value of the sort field at most that of every
    displayed entry. *)
Theorem displayed_entries_are_the_highest :
  forall (selectedBranch : string) (branchData : list Item.t)
         (sortBy count : string),
    let products := productsOf selectedBranch branchData in
    let displayed := topProductsOf sortBy count products in
    let key := field (sortFieldOf sortBy) in
    NoDup displayed /\
    (forall p, In p displayed -> In p products) /\
    (forall p q,
        In p displayed -> In q products -> ~ In q displayed ->
        (key q <= key p)%Qc).
Proof.
  intros selectedBranch branchData sortBy count products displayed key.
  destruct (topProductsOf_prefix sortBy count products) as (rest & E).
  fold displayed in E.
  assert (Permutation (displayed ++ rest) products) as P.
  { rewrite E. apply (sort_perm key). }
  assert (Descending key (displayed ++ rest)) as D.
  { rewrite E. apply (sort_descending key). }
  assert (NoDup (displayed ++ rest)) as ND.
  { apply (Permutation_NoDup (Permutation_sym P)), productsOf_NoDup. }
  split; [now apply NoDup_app_remove_r in ND|]. split.
  - intros p Hp. apply (Permutation_in _ P). apply in_or_app. now left.
  - intros p q Hp Hq Hnot.
    apply (Permutation_in _ (Permutation_sym P)) in Hq.
    apply in_app_or in Hq. destruct Hq as [?|Hq]; [contradiction|].
    exact (sorted_app_dominates _ _ _ D p q Hp Hq).
Qed.

(** X5: a limit that is at least the number of aggregates displays them
    all, as the sentinel "all" does. *)
Theorem limit_beyond_total_displays_all :
  forall (sortBy : string) (k : nat) (products : list Product.t),
    (List.length products <= k)%nat ->
    topProductsOf sortBy (decimal k) products =
    topProductsOf sortBy "all" products /\
    List.length (topProductsOf sortBy (decimal k) products) = List.length products.
Proof.
  intros sortBy k products Hk.
  assert (List.length (Js.sort (descending (sortFieldOf sortBy)) products) =
          List.length products) as L.
  { apply Permutation_length, (sort_perm (field (sortFieldOf sortBy))). }
  unfold topProductsOf. rewrite String.eqb_refl.
  destruct (String.eqb_spec (decimal k) "all") as [E|_].
  - pose proof (parseInt_decimal k) as P. rewrite E in P. discriminate P.
  - rewrite parseInt_decimal, !slice0_of_nat, !firstn_all2 by lia.
    split; [reflexivity|exact L].
Qed.

Lemma limit_beyond_total_displays_all_witness :
  (List.length (productsOf "A" twoProducts) <= 10)%nat /\
  decimal 10 = "10" /\
  topProductsOf "margin" "10" (productsOf "A" twoProducts) =
  topProductsOf "margin" "all" (productsOf "A" twoProducts).
Proof.
  assert (List.length (productsOf "A" twoProducts) <= 10)%nat as H
    by (vm_compute; lia).
  split; [exact H|]. split; [reflexivity|].
  exact (proj1 (limit_beyond_total_displays_all "margin" 10
                  (productsOf "A" twoProducts) H)).
Defined.




(** ** The rows of the table *)

Lemma rowsFrom_rank topProducts : forall start,
  map rank (rowsFrom start topProducts) = seq (start + 1) (List.length topProducts).
Proof.
  induction topProducts as [|p rest IH]; intros start; simpl; [reflexivity|].
  rewrite IH. reflexivity.
Qed.

Lemma rowsFrom_name topProducts : forall start,
  map name (rowsFrom start topProducts) =
  map (fun p => Js.ellipsis 50 (Product.Menu p)) topProducts.
Proof.
  induction topProducts as [|p rest IH]; intros start; simpl; [reflexivity|].
  now rewrite IH.
Qed.

Lemma topProductsOf_length sortBy count products :
  (List.length (topProductsOf sortBy count products) <= List.length products)%nat.
Proof.
  destruct (topProductsOf_prefix sortBy count products) as (rest & E).
  apply (f_equal (@List.length _)) in E. rewrite length_app in E.
  pose proof (Permutation_length (sort_perm (field (sortFieldOf sortBy)) products))
    as L.
  unfold descending in E. rewrite L in E. lia.
Qed.

(** X7: a table that is shown has one row per displayed entry, ranked 1, 2,
    3, ... from the top; the number of rows is the number it announces as
    shown, which is at most the total it announces, the number of
    aggregates of the branch. *)
Theorem rows_are_ranked_from_one :
  forall (dom : Dom) (allData : list Item.t) (page : Page),
    top_performers_table dom = true ->
    branchSelect dom <> EmptyString ->
    branchDataOf allData (branchSelect dom) <> [] ->
    exists rows shown total,
      table (updateTopPerformersTable dom allData page) =
        TableShown (branchSelect dom) rows shown total /\
      List.length rows = shown /\
      map rank rows = seq 1 shown /\
      (shown <= total)%nat /\
      total = List.length (productsOf (branchSelect dom)
                             (branchDataOf allData (branchSelect dom))).
Proof.
  intros dom allData page Hc Hb Hd.
  rewrite (table_of_branch_records dom allData page Hc Hb Hd). cbn zeta.
  do 3 eexists. split; [reflexivity|].
  split; [|split; [|split; [|reflexivity]]].
  - rewrite <- (length_map rank), rowsFrom_rank. apply length_seq.
  - apply rowsFrom_rank.
  - apply topProductsOf_length.
Qed.

Lemma rows_are_ranked_from_one_witness :
  exists rows shown total,
    table (updateTopPerformersTable (selects "A" "2" "revenue") tiedRevenue initialPage)
      = TableShown "A" rows shown total /\
    List.length rows = shown /\
    map rank rows = seq 1 shown /\
    (shown <= total)%nat.
Proof.
  destruct (rows_are_ranked_from_one (selects "A" "2" "revenue") tiedRevenue initialPage)
    as (rows & shown & total & E & L & R & Le & _).
  - reflexivity.
  - discriminate.
  - discriminate.
  - exists rows, shown, total. repeat split; assumption.
Defined.

(** ** Badges *)

Lemma thresholds_ordered :
  (num 10 < num 15)%Qc /\ (num 15 < num 20)%Qc /\ (num 20 < num 30)%Qc.
Proof. repeat split. Qed.

(** X8: how the three badges of a row go together.  The status is Needs
    Review exactly when the margin badge is poor, that is when the margin
    percentage is at most 10; a Star Product has an excellent rank badge
    and a margin badge that is excellent or good; a Good Performer has a
    rank badge that is excellent or good and a margin badge that is not
    poor; and no rank badge is poor. *)
Theorem badges_are_consistent :
  forall (index : nat) (product : Product.t),
    let row := rowOf index product in
    (statusText row = "Needs Review" <-> marginBadge row = "status-poor") /\
    (marginBadge row = "status-poor" <->
     (Product.Margin_Percentage product <= num 10)%Qc) /\
    (statusText row = "Star Product" ->
     rankBadge row = "status-excellent" /\
     (marginBadge row = "status-excellent" \/ marginBadge row = "status-good")) /\
    (statusText row = "Good Performer" ->
     (rankBadge row = "status-excellent" \/ rankBadge row = "status-good") /\
     marginBadge row <> "status-poor") /\
    rankBadge row <> "status-poor".
Proof.
  intros index product row. subst row.
  destruct thresholds_ordered as (T1 & T2 & T3).
  unfold rowOf, statusOf, marginBadgeOf, rankBadgeOf;
    cbn [statusText marginBadge rankBadge].
  set (m := Product.Margin_Percentage product).
  destruct (gtb_reflect m (num 30)) as [M30|M30];
    destruct (gtb_reflect m (num 20)) as [M20|M20];
    destruct (gtb_reflect m (num 15)) as [M15|M15];
    destruct (gtb_reflect m (num 10)) as [M10|M10];
    try (exfalso;
         first [ apply M20; apply (Qclt_trans _ _ _ T3 M30)
               | apply M15; apply (Qclt_trans _ _ _ T2 M20)
               | apply M10; apply (Qclt_trans _ _ _ T1 M15) ]);
    destruct (index <? 3)%nat; destruct (index <? 10)%nat; cbn [andb fst snd];
    repeat split; intros; try discriminate; try reflexivity;
    try (now left); try (now right);
    try (now apply Qcnot_lt_le);
    try (exfalso; eapply Qcle_not_lt; eassumption).
Qed.

(** ** Shortened names *)

Lemma length_append (s1 s2 : string) :
  String.length (s1 ++ s2)%string = (String.length s1 + String.length s2)%nat.
Proof. induction s1 as [|c s1 IH]; simpl; [reflexivity|]. now rewrite IH. Qed.

Lemma substring_all (s : string) : forall n,
  (String.length s <= n)%nat -> substring 0 n s = s.
Proof.
  induction s as [|c s IH]; intros [|n] H; simpl in *; try reflexivity; try lia.
  f_equal. apply IH. lia.
Qed.

Lemma substring_length (s : string) : forall n,
  (n <= String.length s)%nat -> String.length (substring 0 n s) = n.
Proof.
  induction s as [|c s IH]; intros [|n] H; simpl in *; try reflexivity; try lia.
  f_equal. apply IH. lia.
Qed.

Lemma substring_prefix (s : string) : forall n, prefix (substring 0 n s) s = true.
Proof.
  induction s as [|c s IH]; intros [|n]; simpl; try reflexivity.
  destruct (ascii_dec c c) as [_|N]; [apply IH|now elim N].
Qed.

Lemma names_are_cut_lemma :
  forall (n : nat) (s : string),
    ((String.length s <= n)%nat -> Js.ellipsis n s = s) /\
    ((n < String.length s)%nat ->
     exists kept,
       Js.ellipsis n s = (kept ++ "...")%string /\
       String.length kept = n /\
       prefix kept s = true /\
       String.length (Js.ellipsis n s) = (n + 3)%nat) /\
    (substring 0 n s ++ (if (n <? String.length s)%nat then "..." else EmptyString))%string
      = Js.ellipsis n s.
Proof.
  intros n s. unfold Js.ellipsis.
  destruct (Nat.ltb_spec n (String.length s)) as [Lt|Ge].
  - split; [intros; lia|]. split; [|reflexivity].
    intros _. exists (substring 0 n s).
    split; [reflexivity|]. split; [apply substring_length; lia|].
    split; [apply substring_prefix|].
    rewrite length_append, substring_length by lia. reflexivity.
  - split; [reflexivity|]. split; [intros; lia|].
    rewrite substring_all by assumption.
    induction s as [|c s IH]; simpl; [reflexivity|].
    f_equal. clear. induction s as [|c s IH]; simpl; [reflexivity|now rewrite IH].
Qed.

(** X9: a name is shown whole when it has at most [n] characters, and else
    as its first [n] characters followed by three dots, [n + 3] characters
    in all; [n] is 50 in the table, 60 in the product select and 35 in the
    summary, whose own expression for it gives the same text. *)
Theorem names_are_cut_with_an_ellipsis :
  forall (n : nat) (s : string),
    ((String.length s <= n)%nat -> Js.ellipsis n s = s) /\
    ((n < String.length s)%nat ->
     exists kept,
       Js.ellipsis n s = (kept ++ "...")%string /\
       String.length kept = n /\
       prefix kept s = true /\
       String.length (Js.ellipsis n s) = (n + 3)%nat) /\
    (substring 0 n s ++ (if (n <? String.length s)%nat then "..." else EmptyString))%string
      = Js.ellipsis n s.
Proof. exact names_are_cut_lemma. Qed.

Lemma names_are_cut_with_an_ellipsis_witness :
  (5 < String.length "Nasi Goreng")%nat /\
  exists kept,
    Js.ellipsis 5 "Nasi Goreng" = (kept ++ "...")%string /\
    String.length kept = 5%nat.
Proof.
  assert (5 < String.length "Nasi Goreng")%nat as H by (simpl; lia).
  split; [exact H|].
  destruct (proj1 (proj2 (names_are_cut_with_an_ellipsis 5 "Nasi Goreng")) H)
    as (kept & E & L & _).
  exists kept. split; [exact E|exact L].
Defined.

(** ** The summary next to the table *)

Lemma summary_shown dom allData page :
  top_performers_table dom = true ->
  summary_content dom = true ->
  branchSelect dom <> EmptyString ->
  branchDataOf allData (branchSelect dom) <> [] ->
  let products :=
    productsOf (branchSelect dom) (branchDataOf allData (branchSelect dom)) in
  let displayed := topProductsOf (sortBy dom) (topCount dom) products in
  displayed <> [] ->
  summary (updateTopPerformersTable dom allData page) =
  SummaryShown
    {| sortText :=
         if sortBy dom =? "revenue" then "revenue"
         else if sortBy dom =? "quantity" then "quantity" else "margin";
       top3 :=
         map (fun p =>
                (substring 0 35 (Product.Menu p) ++
                 (if (35 <? String.length (Product.Menu p))%nat
                  then "..." else EmptyString))%string)
             (firstn 3 displayed);
       totalRevenue := Js.sum Product.Total displayed;
       avgMargin :=
         (Js.sum Product.Margin_Percentage displayed
          / Js.of_nat (List.length displayed))%Qc;
       showing := List.length displayed;
       outOf :=
         if (List.length products =? 0)%nat then List.length displayed
         else List.length products |}.
Proof.
  intros Hc Hs Hb Hd products displayed Hne.
  rewrite (summary_of_table dom allData page Hc Hb Hd). cbn zeta.
  fold products. fold displayed.
  unfold updateTopPerformersSummary. rewrite Hs. cbn [negb orb].
  destruct (String.eqb_spec (branchSelect dom) EmptyString) as [?|_]; [contradiction|].
  destruct displayed as [|p0 rest] eqn:E; [now elim Hne|]. reflexivity.
Qed.

(** X10: the head of a summary that is shown: its list holds the names of
    the first three displayed entries, fewer when fewer are displayed, each
    cut to 35 characters; the number it gives as shown is at most the total
    it gives, which is the number of aggregates of the branch. *)
Theorem summary_lists_the_first_three :
  forall (dom : Dom) (allData : list Item.t) (page : Page),
    top_performers_table dom = true ->
    summary_content dom = true ->
    branchSelect dom <> EmptyString ->
    branchDataOf allData (branchSelect dom) <> [] ->
    let products :=
      productsOf (branchSelect dom) (branchDataOf allData (branchSelect dom)) in
    let displayed := topProductsOf (sortBy dom) (topCount dom) products in
    displayed <> [] ->
    exists s,
      summary (updateTopPerformersTable dom allData page) = SummaryShown s /\
      top3 s = map (fun p => Js.ellipsis 35 (Product.Menu p)) (firstn 3 displayed) /\
      List.length (top3 s) = Nat.min 3 (showing s) /\
      (showing s <= outOf s)%nat /\
      outOf s = List.length products.
Proof.
  intros dom allData page Hc Hs Hb Hd products displayed Hne.
  rewrite (summary_shown dom allData page Hc Hs Hb Hd Hne).
  fold products. fold displayed.
  eexists. split; [reflexivity|]. cbn [top3 showing outOf].
  pose proof (topProductsOf_length (sortBy dom) (topCount dom) products) as Le.
  fold displayed in Le.
  assert ((List.length products =? 0)%nat = false) as Z.
  { apply Nat.eqb_neq. destruct displayed; [now elim Hne|]. simpl in Le. lia. }
  rewrite Z. split; [|split; [|split; [exact Le|reflexivity]]].
  - apply map_ext. intros p.
    apply (proj2 (proj2 (names_are_cut_lemma 35 (Product.Menu p)))).
  - rewrite length_map, length_firstn. reflexivity.
Qed.

Lemma summary_lists_the_first_three_witness :
  exists s,
    summary (updateTopPerformersTable (selects "A" "all" "revenue") tiedRevenue
               initialPage) = SummaryShown s /\
    top3 s = ["Es Teh"; "Soto"; "Sate"] /\
    (showing s <= outOf s)%nat.
Proof.
  destruct (summary_lists_the_first_three (selects "A" "all" "revenue") tiedRevenue
              initialPage) as (s & E & T & _ & Le & _).
  - reflexivity.
  - reflexivity.
  - discriminate.
  - discriminate.
  - vm_compute. discriminate.
  - exists s. split; [exact E|]. split; [|exact Le]. rewrite T. reflexivity.
Defined.

(** X11: the key the summary names and the field the table is ranked by.
    For revenue, quantity and margin the summary names the selected key,
    which is the key of the field of the ranking; for any other key the
    summary names margin while the table is ranked by the summed total. *)
Theorem summary_names_margin_for_unknown_keys :
  forall (dom : Dom) (allData : list Item.t) (page : Page),
    top_performers_table dom = true ->
    summary_content dom = true ->
    branchSelect dom <> EmptyString ->
    branchDataOf allData (branchSelect dom) <> [] ->
    topProductsOf (sortBy dom) (topCount dom)
      (productsOf (branchSelect dom) (branchDataOf allData (branchSelect dom))) <> [] ->
    exists s,
      summary (updateTopPerformersTable dom allData page) = SummaryShown s /\
      (In (sortBy dom) ["revenue"; "quantity"; "margin"] ->
       sortText s = sortBy dom /\
       specSortField (sortBy dom) = Some (sortFieldOf (sortBy dom))) /\
      (~ In (sortBy dom) ["revenue"; "quantity"; "margin"] ->
       sortText s = "margin" /\ sortFieldOf (sortBy dom) = F_Total).
Proof.
  intros dom allData page Hc Hs Hb Hd Hne.
  rewrite (summary_shown dom allData page Hc Hs Hb Hd Hne).
  eexists. split; [reflexivity|]. cbn [sortText].
  unfold specSortField, sortFieldOf. split.
  - intros [<-|[<-|[<-|[]]]]; split; reflexivity.
  - intros Hnot.
    destruct (String.eqb_spec (sortBy dom) "revenue") as [E|_];
      [elim Hnot; rewrite E; simpl; tauto|].
    destruct (String.eqb_spec (sortBy dom) "quantity") as [E|_];
      [elim Hnot; rewrite E; simpl; tauto|].
    destruct (String.eqb_spec (sortBy dom) "margin") as [E|_];
      [elim Hnot; rewrite E; simpl; tauto|].
    split; reflexivity.
Qed.

Lemma summary_names_margin_for_unknown_keys_witness :
  exists s,
    summary (updateTopPerformersTable (selects "A" "all" "price") twoProducts
               initialPage) = SummaryShown s /\
    sortText s = "margin" /\ sortFieldOf "price" = F_Total.
Proof.
  destruct (summary_names_margin_for_unknown_keys (selects "A" "all" "price")
              twoProducts initialPage) as (s & E & _ & U).
  - reflexivity.
  - reflexivity.
  - discriminate.
  - discriminate.
  - vm_compute. discriminate.
  - exists s. split; [exact E|]. apply U.
    simpl. intros [H|[H|[H|[]]]]; discriminate.
Defined.

(** X12: the table update leaves the summary as it was whenever it shows a
    message in place of the table, for no branch or for a branch without
    records, and it never puts the select-a-branch text into the summary. *)
Theorem messages_leave_the_summary :
  forall (dom : Dom) (allData : list Item.t) (page : Page),
    (branchSelect dom = EmptyString \/
     branchDataOf allData (branchSelect dom) = [] ->
     summary (updateTopPerformersTable dom allData page) = summary page) /\
    (summary (updateTopPerformersTable dom allData page) = SummaryPickBranch ->
     summary page = SummaryPickBranch).
Proof.
  intros dom allData page. unfold updateTopPerformersTable.
  destruct (negb (top_performers_table dom) || (List.length allData =? 0)%nat);
    [split; auto|].
  destruct (String.eqb_spec (branchSelect dom) EmptyString) as [E|N];
    [split; auto|].
  destruct (branchDataOf allData (branchSelect dom)) as [|i0 rest] eqn:D;
    cbn [List.length Nat.eqb]; [split; auto|].
  cbn [summary]. unfold updateTopPerformersSummary.
  destruct (String.eqb_spec (branchSelect dom) EmptyString) as [?|_]; [contradiction|].
  rewrite orb_false_r. split.
  - intros [?|?]; [contradiction|discriminate].
  - destruct (summary_content dom); cbn [negb]; [|auto].
    destruct (List.length _ =? 0)%nat; discriminate.
Qed.

Lemma messages_leave_the_summary_witness :
  summary (updateTopPerformersTable (selects EmptyString "all" "revenue") twoProducts
             (updateTopPerformersTable (selects "A" "all" "revenue") twoProducts
                initialPage)) =
  summary (updateTopPerformersTable (selects "A" "all" "revenue") twoProducts
             initialPage).
Proof.
  apply (proj1 (messages_leave_the_summary (selects EmptyString "all" "revenue")
                  twoProducts _)).
  left. reflexivity.
Defined.

(** ** The details of a product *)

Lemma recordsOf_branch name b allData :
  recordsOf name (branchDataOf allData b) =
  filter (fun item => (Item.Menu item =? name) && (Item.Branch item =? b)) allData.
Proof.
  unfold recordsOf, branchDataOf.
  induction allData as [|item rest IH]; simpl; [reflexivity|].
  destruct (Item.Branch item =? b); simpl.
  - rewrite andb_true_r. destruct (Item.Menu item =? name); now rewrite IH.
  - now rewrite andb_false_r.
Qed.

(** X13: the detail cards of a product agree with its row of the table.
    For a product with a record in the selected branch and a name that is
    no member of Object.prototype, the revenue, the quantity and the margin
    percentage of the cards are those of the aggregate of that name, and
    the number of records is the number of its records in the branch. *)
Theorem details_agree_with_the_table :
  forall (productName selectedBranch : string) (allData : list Item.t) (page : Page),
    selectedBranch <> EmptyString ->
    Js.inherited productName = false ->
    (exists item,
        In item allData /\ Item.Branch item = selectedBranch /\
        Item.Menu item = productName) ->
    exists p m,
      In p (productsOf selectedBranch (branchDataOf allData selectedBranch)) /\
      Product.Menu p = productName /\
      metrics (showProductDetails productName selectedBranch allData page) = Some m /\
      totalRevenueProduct m = Product.Total p /\
      totalQtyProduct m = Product.Qty p /\
      avgMarginProduct m = Product.Margin_Percentage p /\
      recordsFound m =
        List.length (recordsOf productName (branchDataOf allData selectedBranch)).
Proof.
  intros productName selectedBranch allData page Hb Hown (item & Hin & HB & HM).
  set (branchData := branchDataOf allData selectedBranch).
  assert (In item branchData) as Hbd by (apply branchDataOf_In; now split).
  exists (withPercentages (statFor selectedBranch branchData productName)).
  assert (In item (recordsOf productName branchData)) as Hrec.
  { unfold recordsOf. apply filter_In. split; [assumption|]. now apply String.eqb_eq. }
  unfold showProductDetails.
  destruct (String.eqb_spec selectedBranch EmptyString) as [?|_]; [contradiction|].
  rewrite orb_false_r.
  destruct allData as [|i0 rest]; [contradiction|]. cbn [List.length Nat.eqb].
  rewrite <- (recordsOf_branch productName selectedBranch (i0 :: rest)).
  fold branchData.
  destruct (recordsOf productName branchData) as [|r0 rs] eqn:R; [contradiction|].
  cbn [List.length Nat.eqb]. eexists. split.
  - rewrite productsOf_closed. apply in_map_iff. exists productName.
    split; [reflexivity|]. apply keysOf_In, ownMenus_In.
    split; [now exists item|assumption].
  - split; [reflexivity|]. split; [reflexivity|].
    cbn [totalRevenueProduct totalQtyProduct avgMarginProduct recordsFound].
    unfold withPercentages, statFor, groupTotal, totalOf.
    cbn [Product.Total Product.Qty Product.Margin_Percentage
         Stat.Total Stat.Qty Stat.Margin].
    rewrite R. repeat split.
Qed.

Lemma details_agree_with_the_table_witness :
  exists p m,
    In p (productsOf "A" (branchDataOf numbered "A")) /\
    Product.Menu p = "7" /\
    metrics (showProductDetails "7" "A" numbered initialPage) = Some m /\
    totalRevenueProduct m = Product.Total p.
Proof.
  destruct (details_agree_with_the_table "7" "A" numbered initialPage)
    as (p & m & Hp & Hn & Hm & Ht & _).
  - discriminate.
  - reflexivity.
  - exists (sale "A" "7" 3 150 30). split; [simpl; tauto|]. split; reflexivity.
  - exists p, m. repeat split; assumption.
Defined.

Lemma details_keep_lemma productName selectedBranch allData page :
  table (showProductDetails productName selectedBranch allData page) = table page.
Proof.
  unfold showProductDetails.
  destruct ((List.length allData =? 0)%nat || (selectedBranch =? EmptyString));
    [reflexivity|].
  destruct (List.length (filter _ allData) =? 0)%nat; reflexivity.
Qed.

(** X14: showing the details of a product never touches the table or the
    summary, never puts the no-data message into the chart, and either
    leaves the whole page as it was or fills the cards for at least one
    record of the selected branch. *)
Theorem details_keep_the_ranking :
  forall (productName selectedBranch : string) (allData : list Item.t) (page : Page),
    let after := showProductDetails productName selectedBranch allData page in
    table after = table page /\
    summary after = summary page /\
    (chart after = ChartNoData -> chart page = ChartNoData) /\
    (after = page \/
     exists m,
       metrics after = Some m /\
       (0 < recordsFound m)%nat /\
       branchesAvailable m = selectedBranch /\
       selectedBranch <> EmptyString).
Proof.
  intros productName selectedBranch allData page after. subst after.
  unfold showProductDetails.
  destruct ((List.length allData =? 0)%nat || (selectedBranch =? EmptyString)) eqn:G;
    [repeat split; auto|].
  apply orb_false_iff in G. destruct G as [_ G]. apply String.eqb_neq in G.
  destruct (filter _ allData) as [|r0 rs] eqn:F; cbn [List.length Nat.eqb];
    [repeat split; auto|].
  cbn [table summary chart metrics]. repeat split.
  - unfold createEnhancedProductChart. cbn [List.length Nat.eqb].
    destruct (List.length _ =? 0)%nat; discriminate.
  - right. eexists. split; [reflexivity|]. cbn [recordsFound branchesAvailable].
    repeat split; [lia|assumption].
Qed.

(** ** The values of the pie *)




(** ** The selection info *)

Lemma first_seen_NoDup l : NoDup (first_seen l).
Proof.
  induction l as [|k r IH]; simpl; constructor.
  - rewrite filter_In, String.eqb_refl. intros [_ H]. discriminate H.
  - now apply NoDup_filter.
Qed.

Lemma newSet_first_seen l : JsArray.newSet l = first_seen l.
Proof.
  unfold JsArray.newSet. induction l as [|x l IH] using rev_ind; [reflexivity|].
  rewrite fold_left_app, IH, first_seen_snoc. cbn [fold_left]. unfold JsArray.add.
  destruct (existsb (String.eqb x) l) eqn:E.
  - apply existsb_eqb_In in E. apply (proj2 (first_seen_In _ _)) in E.
    now rewrite (proj2 (existsb_eqb_In _ _) E).
  - destruct (existsb (String.eqb x) (first_seen l)) eqn:F; [|reflexivity].
    apply existsb_eqb_In in F. apply (proj1 (first_seen_In _ _)) in F.
    apply existsb_eqb_In in F. congruence.
Qed.

Lemma first_seen_length l : (List.length (first_seen l) <= List.length l)%nat.
Proof.
  apply NoDup_incl_length; [apply first_seen_NoDup|].
  intros k. apply first_seen_In.
Qed.

Lemma keysOf_length data :
  (List.length (keysOf data) <= List.length (first_seen (map Item.Menu data)))%nat /\
  ((forall item, In item data -> Js.inherited (Item.Menu item) = false) ->
   List.length (keysOf data) = List.length (first_seen (map Item.Menu data))).
Proof.
  split.
  - apply NoDup_incl_length; [apply keysOf_NoDup|].
    intros k Hk. apply first_seen_In. apply keysOf_In in Hk.
    unfold ownMenus in Hk. apply filter_In in Hk. tauto.
  - intros H. apply Nat.le_antisymm.
    + apply NoDup_incl_length; [apply keysOf_NoDup|].
      intros k Hk. apply first_seen_In. apply keysOf_In in Hk.
      unfold ownMenus in Hk. apply filter_In in Hk. tauto.
    + apply NoDup_incl_length; [apply first_seen_NoDup|].
      intros k Hk. apply (proj1 (first_seen_In _ _)) in Hk.
      apply keysOf_In. now rewrite (ownMenus_all data H).
Qed.

Lemma productsOf_length selectedBranch data :
  List.length (productsOf selectedBranch data) = List.length (keysOf data).
Proof. rewrite productsOf_closed. apply length_map. Qed.

(** X16: with a branch selected, the info line counts the distinct product
    names of the branch and its records.  There are at most as many
    products as records, and the total the table announces is at most the
    number of products, and equal to it when no product is named like a
    member of Object.prototype. *)
Theorem selection_info_counts :
  forall (dom : Dom) (els : Elements) (allData : list Item.t) (info : SelectionInfo),
    selection_text els = true ->
    stat_products els = true ->
    stat_records els = true ->
    allData <> [] ->
    branchSelect dom <> EmptyString ->
    let branchData := branchDataOf allData (branchSelect dom) in
    let names := map Item.Menu branchData in
    let after := updateSelectionInfo dom els allData info in
    let total := List.length (productsOf (branchSelect dom) branchData) in
    exists products records,
      selectionText after = SelectionTextBranch (branchSelect dom) /\
      statProducts after = CellCount products /\
      statRecords after = CellCount records /\
      records = List.length branchData /\
      products = List.length (first_seen names) /\
      (products <= records)%nat /\
      (total <= products)%nat /\
      ((forall k, In k names -> Js.inherited k = false) -> total = products).
Proof.
  intros dom els allData info Ht Hp Hr Hne Hb branchData names after total.
  subst after. unfold updateSelectionInfo. rewrite Ht, Hp, Hr.
  destruct allData as [|i0 rest]; [now elim Hne|]. cbn [negb orb List.length Nat.eqb].
  destruct (String.eqb_spec (branchSelect dom) EmptyString) as [?|_]; [contradiction|].
  fold branchData. fold names.
  do 2 eexists. cbn [selectionText statProducts statRecords].
  split; [reflexivity|]. split; [reflexivity|]. split; [reflexivity|].
  split; [reflexivity|]. rewrite newSet_first_seen. split; [reflexivity|].
  split; [|split].
  - unfold names. rewrite <- (length_map Item.Menu branchData).
    apply first_seen_length.
  - subst total. rewrite productsOf_length. apply keysOf_length.
  - intros H. subst total. rewrite productsOf_length. apply keysOf_length.
    intros item Hi. apply H. now apply in_map.
Qed.

Lemma selection_info_counts_witness :
  exists products records,
    statProducts (updateSelectionInfo (selects "A" "all" "revenue") allElements
                    numbered initialInfo) = CellCount products /\
    statRecords (updateSelectionInfo (selects "A" "all" "revenue") allElements
                   numbered initialInfo) = CellCount records /\
    (products <= records)%nat.
Proof.
  destruct (selection_info_counts (selects "A" "all" "revenue") allElements numbered
              initialInfo) as (p & r & _ & Hp & Hr & _ & _ & Le & _).
  - reflexivity.
  - reflexivity.
  - reflexivity.
  - discriminate.
  - discriminate.
  - exists p, r. repeat split; assumption.
Defined.

(** ** The product select *)

Lemma ascii_compare_refl (c : ascii) : Ascii.compare c c = Eq.
Proof. unfold Ascii.compare. apply N.compare_refl. Qed.

Lemma string_le_trans (a b c : string) :
  String.compare a b <> Gt -> String.compare b c <> Gt -> String.compare a c <> Gt.
Proof.
  revert b c. induction a as [|x a IH]; intros [|y b] [|z c]; simpl;
    try congruence.
  unfold Ascii.compare.
  destruct (N.compare_spec (N_of_ascii x) (N_of_ascii y)) as [E1|L1|G1];
    destruct (N.compare_spec (N_of_ascii y) (N_of_ascii z)) as [E2|L2|G2];
    destruct (N.compare_spec (N_of_ascii x) (N_of_ascii z)) as [E3|L3|G3];
    try congruence; try lia.
  apply IH.
Qed.

Lemma string_le_total (a b : string) :
  String.compare a b = Gt -> String.compare b a <> Gt.
Proof. intros H. rewrite String.compare_antisym, H. discriminate. Qed.

Lemma defaultCompare_positive a b :
  Js.gtb (JsArray.defaultCompare a b) 0 = true <-> String.compare a b = Gt.
Proof.
  unfold JsArray.defaultCompare. destruct (String.compare a b); split;
    try discriminate; reflexivity.
Qed.

Lemma insert_any_perm {A} (cmp : A -> A -> Qc) x l :
  Permutation (Js.insert cmp x l) (x :: l).
Proof.
  induction l as [|y r IH]; simpl; [reflexivity|].
  destruct (Js.gtb (cmp x y) 0); [|reflexivity].
  rewrite IH. apply perm_swap.
Qed.

Lemma sort_any_perm {A} (cmp : A -> A -> Qc) l : Permutation (Js.sort cmp l) l.
Proof.
  induction l as [|x r IH]; simpl; [reflexivity|].
  rewrite insert_any_perm. now constructor.
Qed.

Lemma insert_names_ascending x l :
  AscendingNames l -> AscendingNames (Js.insert JsArray.defaultCompare x l).
Proof.
  unfold AscendingNames. induction 1 as [|y r Hr IH Hy]; simpl.
  - repeat constructor.
  - destruct (Js.gtb (JsArray.defaultCompare x y) 0) eqn:E.
    + apply defaultCompare_positive in E. constructor; [assumption|].
      apply Forall_forall. intros z Hz.
      apply (Permutation_in _ (insert_any_perm _ x r)) in Hz.
      destruct Hz as [<-|Hz]; [now apply string_le_total|].
      rewrite Forall_forall in Hy. now apply Hy.
    + assert (String.compare x y <> Gt) as Le.
      { intros G. apply defaultCompare_positive in G. congruence. }
      constructor; [now constructor|]. constructor; [assumption|].
      apply Forall_forall. intros z Hz. rewrite Forall_forall in Hy.
      apply (string_le_trans x y z Le). now apply Hy.
Qed.

Lemma sortDefault_ascending l : AscendingNames (JsArray.sortDefault l).
Proof.
  unfold JsArray.sortDefault. induction l as [|x r IH]; simpl; [constructor|].
  now apply insert_names_ascending.
Qed.

(** X17: with a branch selected, the product select offers the distinct
    product names of the branch, each once, in ascending order of their
    code units, under a text cut to 60 characters, and is enabled; every
    product of the table is among them.  With no branch selected it holds
    the placeholder alone and is disabled, whatever the records. *)
Theorem product_select_lists_the_branch :
  forall (dom : Dom) (els : Elements) (allData : list Item.t) (picker : Picker),
    let selectedBranch := branchSelect dom in
    let after := updateProductDropdown dom els allData picker in
    (selectedBranch = EmptyString -> dropdown after = DropdownPickBranch) /\
    (selectedBranch <> EmptyString ->
     exists options,
       dropdown after = DropdownProducts options /\
       AscendingNames (map optionValue options) /\
       NoDup (map optionValue options) /\
       (forall v,
           In v (map optionValue options) <->
           exists item,
             In item allData /\ Item.Branch item = selectedBranch /\
             Item.Menu item = v) /\
       (forall o, In o options -> optionText o = Js.ellipsis 60 (optionValue o)) /\
       (forall p,
           In p (productsOf selectedBranch (branchDataOf allData selectedBranch)) ->
           In (Product.Menu p) (map optionValue options)) /\
       (branch_info_text els = true ->
        branchInfo after = BranchInfoMenus selectedBranch (List.length options))).
Proof.
  intros dom els allData picker selectedBranch after. subst after.
  unfold updateProductDropdown. fold selectedBranch.
  destruct (String.eqb_spec selectedBranch EmptyString) as [E|N];
    (split; [intros H|intros H]); try contradiction; try reflexivity.
  set (names := map Item.Menu (branchDataOf allData selectedBranch)).
  set (sorted := JsArray.sortDefault (JsArray.newSet names)).
  assert (Permutation sorted (first_seen names)) as P.
  { unfold sorted. rewrite newSet_first_seen. apply sort_any_perm. }
  assert (forall v, In v sorted <->
                    exists item, In item allData /\ Item.Branch item = selectedBranch /\
                                 Item.Menu item = v) as Hin.
  { intros v. split.
    - intros Hv. apply (Permutation_in _ P) in Hv.
      apply (proj1 (first_seen_In _ _)) in Hv. unfold names in Hv.
      apply in_map_iff in Hv. destruct Hv as (item & Hm & Hi).
      apply branchDataOf_In in Hi. exists item. tauto.
    - intros (item & Hi & Hb & Hm).
      apply (Permutation_in _ (Permutation_sym P)). apply first_seen_In.
      unfold names. apply in_map_iff. exists item. split; [assumption|].
      apply branchDataOf_In. now split. }
  eexists. cbn [dropdown branchInfo]. split; [reflexivity|].
  rewrite map_map. cbn [optionValue]. rewrite map_id, length_map.
  split; [apply sortDefault_ascending|]. split; [|split; [exact Hin|split; [|split]]].
  - apply (Permutation_NoDup (Permutation_sym P)), first_seen_NoDup.
  - intros o Ho. apply in_map_iff in Ho. destruct Ho as (v & <- & _). reflexivity.
  - intros p Hp. apply Hin.
    destruct (proj1 (proj1 (proj2 (one_aggregate_lemma selectedBranch
                (branchDataOf allData selectedBranch))) (Product.Menu p))
                (in_map _ _ _ Hp)) as ((item & Hi & Hm) & _).
    apply branchDataOf_In in Hi. exists item. tauto.
  - intros ->. reflexivity.
Qed.

Lemma product_select_lists_the_branch_witness :
  exists options,
    dropdown (updateProductDropdown (selects "A" "all" "revenue") allElements numbered
                initialPicker) = DropdownProducts options /\
    map optionValue options = ["3"; "7"; "Nasi Goreng"] /\
    AscendingNames (map optionValue options).
Proof.
  destruct (proj2 (product_select_lists_the_branch (selects "A" "all" "revenue")
                     allElements numbered initialPicker))
    as (options & E & A & _).
  - discriminate.
  - exists options. split; [exact E|]. split; [|exact A].
    injection E as <-. reflexivity.
Defined.

(** ** Running an update again *)

(** X18: each of the four updates is idempotent: run a second time with the
    same selections and records, it leaves everything as the first run
    left it. *)
Theorem updates_are_idempotent :
  forall (dom : Dom) (els : Elements) (allData : list Item.t)
         (productName : string) (page : Page) (info : SelectionInfo)
         (picker : Picker),
    updateTopPerformersTable dom allData (updateTopPerformersTable dom allData page) =
      updateTopPerformersTable dom allData page /\
    updateSelectionInfo dom els allData (updateSelectionInfo dom els allData info) =
      updateSelectionInfo dom els allData info /\
    updateProductDropdown dom els allData (updateProductDropdown dom els allData picker) =
      updateProductDropdown dom els allData picker /\
    showProductDetails productName (branchSelect dom) allData
      (showProductDetails productName (branchSelect dom) allData page) =
      showProductDetails productName (branchSelect dom) allData page.
Proof.
  intros dom els allData productName page info picker. repeat split.
  - unfold updateTopPerformersTable.
    destruct (negb (top_performers_table dom) || (List.length allData =? 0)%nat);
      [reflexivity|].
    destruct (branchSelect dom =? EmptyString) eqn:B; [reflexivity|].
    destruct (List.length (branchDataOf allData (branchSelect dom)) =? 0)%nat;
      [reflexivity|].
    cbn [table summary metrics chart]. f_equal.
    unfold updateTopPerformersSummary. rewrite B.
    destruct (summary_content dom); reflexivity.
  - unfold updateSelectionInfo.
    destruct (negb (selection_text els) || (List.length allData =? 0)%nat);
      [reflexivity|].
    destruct (branchSelect dom =? EmptyString);
      cbn [selectionText statProducts statRecords statBranches];
      destruct (stat_products els), (stat_records els), (stat_branches els);
      reflexivity.
  - unfold updateProductDropdown.
    destruct (branchSelect dom =? EmptyString); cbn [dropdown branchInfo];
      destruct (branch_info_text els); reflexivity.
  - unfold showProductDetails.
    destruct ((List.length allData =? 0)%nat || (branchSelect dom =? EmptyString));
      [reflexivity|].
    destruct (List.length (filter _ allData) =? 0)%nat; reflexivity.
Qed.

(** ** Sessions *)

Lemma table_rendered dom productData page :
  top_performers_table dom = true -> productData <> [] ->
  table (updateTopPerformersTable dom productData page) = tableFor dom productData.
Proof.
  intros Hc Hd. unfold tableFor, updateTopPerformersTable. rewrite Hc.
  destruct productData as [|i0 rest]; [now elim Hd|].
  cbn [negb orb List.length Nat.eqb].
  destruct (branchSelect dom =? EmptyString); [reflexivity|].
  destruct (List.length (branchDataOf (i0 :: rest) (branchSelect dom)) =? 0)%nat;
    reflexivity.
Qed.

Lemma table_not_rendered dom productData page :
  ~ (top_performers_table dom = true /\ productData <> []) ->
  updateTopPerformersTable dom productData page = page.
Proof.
  intros H. unfold updateTopPerformersTable.
  destruct (top_performers_table dom); [|reflexivity].
  destruct productData as [|i0 rest]; [reflexivity|].
  elim H. split; [reflexivity|discriminate].
Qed.

Lemma tableFor_no_branch dom dom' productData :
  branchSelect dom = EmptyString -> branchSelect dom' = EmptyString ->
  top_performers_table dom' = top_performers_table dom ->
  tableFor dom' productData = tableFor dom productData.
Proof.
  intros B B' C. unfold tableFor, updateTopPerformersTable. rewrite B, B', C.
  destruct (negb (top_performers_table dom) || (List.length productData =? 0)%nat);
    reflexivity.
Qed.

Lemma handle_container els productData e st :
  top_performers_table (selected (handle els productData e st)) =
  top_performers_table (selected st).
Proof. destruct e; reflexivity. Qed.

Lemma handle_following els productData e st :
  Following productData st -> Following productData (handle els productData e st).
Proof.
  intros (Hc & Hd & Ht). unfold Following. rewrite handle_container.
  split; [assumption|]. split; [assumption|].
  destruct e as [v|v|v|v]; cbn [handle selected screen].
  - cbn [onBranchChange page]. now apply table_rendered.
  - unfold onRankingChange.
    destruct (String.eqb_spec (branchSelect (withCount (selected st) v)) EmptyString)
      as [B|_].
    + rewrite Ht. symmetry. now apply tableFor_no_branch.
    + cbn [page]. now apply table_rendered.
  - unfold onRankingChange.
    destruct (String.eqb_spec (branchSelect (withSort (selected st) v)) EmptyString)
      as [B|_].
    + rewrite Ht. symmetry. now apply tableFor_no_branch.
    + cbn [page]. now apply table_rendered.
  - unfold onProductChange.
    destruct (negb (v =? EmptyString) && negb (branchSelect (selected st) =? EmptyString));
      cbn [page]; [|assumption].
    rewrite <- Ht.
    apply (details_keep_lemma v (branchSelect (selected st)) productData).
Qed.

Lemma handle_initial_or_following els productData e st :
  table (page (screen st)) = TableInitial \/ Following productData st ->
  table (page (screen (handle els productData e st))) = TableInitial \/
  Following productData (handle els productData e st).
Proof.
  intros [Hi|Hf]; [|right; now apply handle_following].
  destruct (top_performers_table (selected st)) eqn:Hc.
  - destruct productData as [|i0 rest] eqn:Hd.
    + left. destruct e as [v|v|v|v]; cbn [handle selected screen].
      * cbn [onBranchChange page]. now rewrite table_not_rendered by (intros [_ H]; now elim H).
      * unfold onRankingChange. destruct (_ =? _); [assumption|]. cbn [page].
        now rewrite table_not_rendered by (intros [_ H]; now elim H).
      * unfold onRankingChange. destruct (_ =? _); [assumption|]. cbn [page].
        now rewrite table_not_rendered by (intros [_ H]; now elim H).
      * unfold onProductChange. destruct (_ && _); cbn [page]; [|assumption].
        rewrite <- Hi. apply (details_keep_lemma v _ []).
    + rewrite <- Hd in *.
      assert (productData <> []) as Hne by (rewrite Hd; discriminate).
      clear Hd.
      destruct e as [v|v|v|v]; cbn [handle selected screen].
      * right. split; [exact Hc|]. split; [exact Hne|].
        cbn [onBranchChange page]. now apply table_rendered.
      * unfold onRankingChange. destruct (_ =? _) eqn:B; [now left|].
        right. split; [exact Hc|]. split; [exact Hne|].
        cbn [page]. now apply table_rendered.
      * unfold onRankingChange. destruct (_ =? _) eqn:B; [now left|].
        right. split; [exact Hc|]. split; [exact Hne|].
        cbn [page]. now apply table_rendered.
      * left. unfold onProductChange. destruct (_ && _); cbn [page]; [|assumption].
        rewrite <- Hi. apply (details_keep_lemma v _ productData).
  - left. destruct e as [v|v|v|v]; cbn [handle selected screen].
    + cbn [onBranchChange page].
      rewrite table_not_rendered; [assumption|].
      cbn [withBranch top_performers_table]. rewrite Hc. intros [H _]. discriminate.
    + unfold onRankingChange. destruct (_ =? _); [assumption|]. cbn [page].
      rewrite table_not_rendered; [assumption|].
      cbn [withCount top_performers_table]. rewrite Hc. intros [H _]. discriminate.
    + unfold onRankingChange. destruct (_ =? _); [assumption|]. cbn [page].
      rewrite table_not_rendered; [assumption|].
      cbn [withSort top_performers_table]. rewrite Hc. intros [H _]. discriminate.
    + unfold onProductChange. destruct (_ && _); cbn [page]; [|assumption].
      rewrite <- Hi. apply (details_keep_lemma v _ productData).
Qed.

(** X19: through any sequence of changes of the four selects, starting with
    the table as served, the table on the screen is either still the one
    served or the one computed from the values the selects now hold; with
    the table container and at least one record it is the latter as soon as
    the branch select has changed once. *)
Theorem table_follows_the_selects :
  forall (els : Elements) (productData : list Item.t) (events : list Event)
         (st0 : Session),
    table (page (screen st0)) = TableInitial ->
    let st := run els productData events st0 in
    (table (page (screen st)) = TableInitial \/
     table (page (screen st)) = tableFor (selected st) productData) /\
    (top_performers_table (selected st0) = true ->
     productData <> [] ->
     (exists v, In (BranchChange v) events) ->
     table (page (screen st)) = tableFor (selected st) productData).
Proof.
  intros els productData events st0 H0 st. subst st. split.
  - assert (table (page (screen st0)) = TableInitial \/ Following productData st0)
      as I by now left.
    clear H0. revert st0 I. unfold run.
    induction events as [|e events IH]; intros st0 I; cbn [fold_left].
    + destruct I as [?|(_ & _ & ?)]; [now left|now right].
    + apply IH. now apply handle_initial_or_following.
  - intros Hc Hd (v & Hv). clear H0. revert st0 Hc Hv. unfold run.
    assert (forall evs st, Following productData st ->
              Following productData
                (fold_left (fun st e => handle els productData e st) evs st)) as Keep.
    { induction evs as [|e evs IH]; intros st F; cbn [fold_left]; [assumption|].
      apply IH. now apply handle_following. }
    induction events as [|e events IH]; intros st0 Hc Hv; [contradiction|].
    cbn [fold_left]. destruct Hv as [->|Hv].
    + apply (Keep events). cbn [handle]. split; [exact Hc|]. split; [exact Hd|].
      cbn [selected screen onBranchChange page]. now apply table_rendered.
    + apply IH; [|assumption]. now rewrite handle_container.
Qed.

Lemma table_follows_the_selects_witness :
  let st0 :=
    {| selected := selects EmptyString "5" "revenue";
       screen := snd (initializeProductAnalysis true (selects EmptyString "5" "revenue")
                        allElements (Some tiedRevenue) initialScreen) |} in
  let st := run allElements tiedRevenue
              [CountChange "2"; BranchChange "A"; SortChange "margin"] st0 in
  table (page (screen st0)) = TableInitial /\
  shownNames (page (screen st)) = Some ["Sate"; "Soto"] /\
  table (page (screen st)) = tableFor (selected st) tiedRevenue.
Proof.
  cbn zeta. split; [reflexivity|]. split; [reflexivity|].
  apply (table_follows_the_selects allElements tiedRevenue
           [CountChange "2"; BranchChange "A"; SortChange "margin"]
           {| selected := selects EmptyString "5" "revenue";
              screen := snd (initializeProductAnalysis true
                               (selects EmptyString "5" "revenue")
                               allElements (Some tiedRevenue) initialScreen) |}).
  - reflexivity.
  - reflexivity.
  - discriminate.
  - exists "A". simpl. tauto.
Defined.

(** X20: the details of a product change on product changes only: a
    sequence of changes of the branch, the count and the sort key leaves
    the metric cards, the chart and the visibility of the detail panel as
    they were, whatever branch is selected on the way. *)
Theorem details_outlive_branch_changes :
  forall (els : Elements) (productData : list Item.t) (events : list Event)
         (st0 : Session),
    (forall v, ~ In (ProductChange v) events) ->
    let st := run els productData events st0 in
    metrics (page (screen st)) = metrics (page (screen st0)) /\
    chart (page (screen st)) = chart (page (screen st0)) /\
    detailDisplay (screen st) = detailDisplay (screen st0).
Proof.
  intros els productData events st0 Hno st. subst st. revert st0. unfold run.
  induction events as [|e events IH]; intros st0; cbn [fold_left]; [now repeat split|].
  assert (forall v, ~ In (ProductChange v) events) as Hno'
    by (intros v H; apply (Hno v); now right).
  destruct (IH Hno' (handle els productData e st0)) as (M & C & D).
  rewrite M, C, D. clear IH M C D.
  assert (forall dom page,
             metrics (updateTopPerformersTable dom productData page) = metrics page /\
             chart (updateTopPerformersTable dom productData page) = chart page) as Frame.
  { intros dom page. unfold updateTopPerformersTable.
    destruct (negb (top_performers_table dom) || (List.length productData =? 0)%nat);
      [now split|].
    destruct (branchSelect dom =? EmptyString); [now split|].
    destruct (List.length (branchDataOf productData (branchSelect dom)) =? 0)%nat;
      now split. }
  destruct e as [v|v|v|v]; cbn [handle selected screen].
  - cbn [onBranchChange page detailDisplay]. destruct (Frame (withBranch (selected st0) v) (page (screen st0))). now repeat split.
  - unfold onRankingChange. destruct (_ =? _); [now repeat split|].
    cbn [page detailDisplay].
    destruct (Frame (withCount (selected st0) v) (page (screen st0))). now repeat split.
  - unfold onRankingChange. destruct (_ =? _); [now repeat split|].
    cbn [page detailDisplay].
    destruct (Frame (withSort (selected st0) v) (page (screen st0))). now repeat split.
  - elim (Hno v). now left.
Qed.

Lemma details_outlive_branch_changes_witness :
  let st0 :=
    run allElements numbered [BranchChange "A"; ProductChange "7"]
      {| selected := selects EmptyString "all" "revenue"; screen := initialScreen |} in
  let st := run allElements numbered [BranchChange "B"] st0 in
  (forall v, ~ In (ProductChange v) [BranchChange "B"]) /\
  shownNames (page (screen st)) = Some ["Bakso"] /\
  option_map totalRevenueProduct (metrics (page (screen st))) = Some (num 150) /\
  detailDisplay (screen st) = DisplayBlock.
Proof.
  cbn zeta.
  assert (forall v, ~ In (ProductChange v) [BranchChange "B"]) as H
    by (intros v [E|[]]; discriminate).
  split; [exact H|]. split; [reflexivity|].
  destruct (details_outlive_branch_changes allElements numbered [BranchChange "B"]
              (run allElements numbered [BranchChange "A"; ProductChange "7"]
                 {| selected := selects EmptyString "all" "revenue";
                    screen := initialScreen |}) H) as (M & _ & D).
  cbn zeta in M, D. rewrite M, D. split; reflexivity.
Defined.

(** ** The order of the records *)






(** ** What takes the place of the table *)

Lemma tableFor_cases dom allData :
  let b := branchSelect dom in
  ((top_performers_table dom = false \/ allData = []) /\
   tableFor dom allData = TableInitial) \/
  (top_performers_table dom = true /\ allData <> [] /\
   ((b = EmptyString /\ tableFor dom allData = TableSelectBranch) \/
    (b <> EmptyString /\
     (forall item, In item allData -> Item.Branch item <> b) /\
     tableFor dom allData = TableNoData b) \/
    (b <> EmptyString /\
     (exists item, In item allData /\ Item.Branch item = b) /\
     exists rows shown total, tableFor dom allData = TableShown b rows shown total))).
Proof.
  cbn zeta. unfold tableFor, updateTopPerformersTable.
  destruct (top_performers_table dom); cbn [negb orb]; [|left; split; [now left|reflexivity]].
  destruct allData as [|i0 rest]; cbn [List.length Nat.eqb];
    [left; split; [now right|reflexivity]|].
  right. split; [reflexivity|]. split; [discriminate|].
  set (allData := i0 :: rest).
  destruct (String.eqb_spec (branchSelect dom) EmptyString) as [E|N]; cbn [table];
    [left; now split|].
  right.
  destruct (branchDataOf allData (branchSelect dom)) as [|r0 rs] eqn:D;
    cbn [List.length Nat.eqb table].
  - left. split; [assumption|]. split; [|reflexivity].
    intros item Hi E.
    assert (In item (branchDataOf allData (branchSelect dom))) as X
      by (apply branchDataOf_In; now split).
    rewrite D in X. contradiction.
  - right. split; [assumption|]. split.
    + exists r0. apply branchDataOf_In. rewrite D. now left.
    + do 3 eexists. reflexivity.
Qed.

(** X22: what the table update writes over the table as served.  Nothing,
    when the container is missing or there is no record at all; else the
    select-a-branch message when no branch is selected; else the no-data
    message, naming the branch, when no record is of the selected branch;
    else the table of the branch. *)
Theorem table_outcomes :
  forall (dom : Dom) (allData : list Item.t),
    let b := branchSelect dom in
    let rendering := top_performers_table dom = true /\ allData <> [] in
    (tableFor dom allData = TableInitial <-> ~ rendering) /\
    (tableFor dom allData = TableSelectBranch <-> rendering /\ b = EmptyString) /\
    (forall b',
        tableFor dom allData = TableNoData b' <->
        rendering /\ b <> EmptyString /\ b' = b /\
        forall item, In item allData -> Item.Branch item <> b) /\
    ((exists b' rows shown total,
         tableFor dom allData = TableShown b' rows shown total) <->
     rendering /\ b <> EmptyString /\
     exists item, In item allData /\ Item.Branch item = b).
Proof.
  intros dom allData b rendering. subst rendering b.
  destruct (tableFor_cases dom allData) as
    [[Hno E]|(Hc & Hd & [[Hb E]|[(Hb & Hnone & E)|(Hb & Hsome & rows & shown & total & E)]])];
    cbn zeta in *; rewrite E.
  - assert (~ (top_performers_table dom = true /\ allData <> [])) as N.
    { intros [H1 H2]. destruct Hno as [H|H]; [congruence|contradiction]. }
    split; [tauto|]. split; [split; [discriminate|tauto]|].
    split; [intros b'; split; [discriminate|tauto]|].
    split; [intros (? & ? & ? & ? & ?); discriminate|tauto].
  - split; [split; [discriminate|tauto]|]. split; [tauto|].
    split; [intros b'; split; [discriminate|tauto]|].
    split; [intros (? & ? & ? & ? & ?); discriminate|tauto].
  - split; [split; [discriminate|tauto]|].
    split; [split; [discriminate|tauto]|]. split.
    + intros b'. split; [intros H; injection H as <-; tauto|].
      intros (_ & _ & -> & _). reflexivity.
    + split; [intros (? & ? & ? & ? & ?); discriminate|].
      intros (_ & _ & item & Hi & Heq). elim (Hnone item Hi Heq).
  - split; [split; [discriminate|tauto]|].
    split; [split; [discriminate|tauto]|]. split.
    + intros b'. split; [discriminate|].
      intros (_ & _ & _ & Hnone). destruct Hsome as (item & Hi & Heq).
      elim (Hnone item Hi Heq).
    + split; [tauto|]. intros _. now exists (branchSelect dom), rows, shown, total.
Qed.
